(** * GitHub backend plugin: proxy router, client factory, URL reader,
      client cache and rate-limit metrics.

    A shallow embedding of
      - plugins/github-backend/src/router.ts   ([Router])
      - plugins/github-backend/src/octokit.ts  ([Factory], function getOctokit)
      - plugins/github-backend/src/reader.ts   ([Reader], class GitHubUrlReader)
      - the GithubClient class                  ([GithubClient], forHost)
      - plugins/github-node rateLimitMetricsMiddleware ([Metrics])

    Asynchronous functions are computations over an explicit world: a
    function from the world before to a completion (normal return or a
    thrown error) and the world after.  Collaborators that live outside the
    repository (credentials provider, SCM integrations, discovery, the
    upstream GitHub API, the file system, the glob matcher) are section
    variables. *)

From Stdlib Require Import ZArith Ascii String List.
From stdpp Require Import base option gmap strings list fin_maps pretty.

Set Warnings "-register-all".
Local Open Scope string_scope.
Local Open Scope Z_scope.

(** ** JavaScript values shared by all modules *)

Module JS.

(** An Error object: [name] is the class name, [status] the optional
    numeric [status] property that Octokit's RequestError carries. *)
Record JsError := mkError {
  name : string;
  message : string;
  status : option Z
}.

Definition Error (msg : string) : JsError := mkError "Error" msg None.
Definition TypeError (msg : string) : JsError := mkError "TypeError" msg None.
(** @backstage/errors *)
Definition InputError (msg : string) : JsError := mkError "InputError" msg None.
Definition NotModifiedError : JsError := mkError "NotModifiedError" "" None.

(** Completion of a call: it returns or it throws (an async function
    resolves or rejects). *)
Inductive completion (A : Type) : Type :=
  | Return (a : A)
  | Throw (e : JsError).
Arguments Return {A} a.
Arguments Throw {A} e.

Definition is_throw {A} (c : completion A) : bool :=
  match c with Throw _ => true | Return _ => false end.

(** A computation over a world [W]. *)
Definition Async (W A : Type) : Type := W -> completion A * W.

Definition ret {W A} (a : A) : Async W A := fun w => (Return a, w).
Definition throw {W A} (e : JsError) : Async W A := fun w => (Throw e, w).
Definition bind {W A B} (m : Async W A) (k : A -> Async W B) : Async W B :=
  fun w => match m w with
           | (Return a, w') => k a w'
           | (Throw e, w') => (Throw e, w')
           end.
(** try { m } catch (e) { h e } *)
Definition try_catch {W A} (m : Async W A) (h : JsError -> Async W A) : Async W A :=
  fun w => match m w with
           | (Return a, w') => (Return a, w')
           | (Throw e, w') => h e w'
           end.
Definition lift {W A} (c : completion A) : Async W A := fun w => (c, w).
Definition modify {W} (f : W -> W) : Async W unit := fun w => (Return tt, f w).
Definition gets {W A} (f : W -> A) : Async W A := fun w => (Return (f w), w).

(** [s.startsWith(p)] *)
Definition startsWith (s p : string) : bool := String.prefix p s.

(** [!s] on a string: only the empty string is falsy. *)
Definition falsy (s : string) : bool :=
  match s with EmptyString => true | String _ _ => false end.

(** [a || b] on strings. *)
Definition or_else (a b : string) : string := if falsy a then b else a.

(** [s.replace(pat, rep)] with a string pattern: only the first
    occurrence, scanning from the left, is replaced.  ([rep] is taken
    literally; the router's replacement is the empty string.) *)
Fixpoint replace (s pat rep : string) : string :=
  if String.prefix pat s
  then rep +:+ String.substring (String.length pat)
                                (String.length s - String.length pat) s
  else match s with
       | EmptyString => EmptyString
       | String c s' => String c (replace s' pat rep)
       end.

End JS.
Export JS.

Declare Scope async_scope.
Delimit Scope async_scope with async.
Notation "x <- m ;; k" := (JS.bind m (fun x => k))
  (at level 100, m at next level, right associativity) : async_scope.
Notation "m ;;; k" := (JS.bind m (fun _ => k))
  (at level 100, right associativity) : async_scope.

(** ** The glob matcher used by [search]

    [search] calls the third-party [minimatch(path, pattern)] with no
    options; the reader below takes the matcher as a parameter.  This module
    describes the package on the one pattern the reader supplies itself,
    the default ["**"]: the matcher splits the path at slashes and its
    globstar loop accepts the path unless a segment is ".", ".." or, the
    [dot] option being off by default, begins with a period (the package's
    documentation of [dot]: a globstar does not match a/.d/b unless [dot]
    is set).  Patterns that come from the URL are left to
    [minimatch_pattern]. *)

Module Glob.

(** [p.split('/')].  (The matcher splits at runs of slashes; the extra
    empty segments a single-slash split yields pass the test below, so
    the verdict is the same.) *)
Fixpoint slashSplit_aux (cur : string) (p : string) : list string :=
  match p with
  | EmptyString => [String.rev cur]
  | String c p' =>
      if Ascii.eqb c "/"%char
      then String.rev cur :: slashSplit_aux EmptyString p'
      else slashSplit_aux (String c cur) p'
  end.
Definition slashSplit (p : string) : list string := slashSplit_aux EmptyString p.

(** A segment the globstar refuses to swallow when [dot] is off. *)
Definition dot_segment (seg : string) : bool :=
  String.eqb seg "." || String.eqb seg ".." || JS.startsWith seg ".".

(** The matcher's verdict on the pattern ["**"]. *)
Definition globstar (p : string) : bool :=
  forallb (fun seg => negb (dot_segment seg)) (slashSplit p).

Definition minimatch (minimatch_pattern : string -> string -> bool)
           (p pattern : string) : bool :=
  if String.eqb pattern "**" then globstar p else minimatch_pattern p pattern.

End Glob.


(** ** HTTP header maps

    A header object maps names to values; a value is a string, a number or
    a list of strings (Node's [OutgoingHttpHeader]). *)

Module Http.

Inductive HeaderValue :=
| HStr (s : string)
| HNum (n : Z)
| HList (l : list string).

(** A JSON value: a parsed request body, or the [data] of an upstream
    response. *)
Inductive Json :=
| JNull
| JBool (b : bool)
| JNum (n : Z)
| JStr (s : string)
| JArr (l : list Json)
| JObj (fields : list (string * Json)).

(** The double-quote character, for messages that quote a header name. *)
Definition dquote : string := String (Ascii.ascii_of_nat 34) EmptyString.

(** [c.toLowerCase()] on one ASCII character. *)
Definition lower_ascii (c : ascii) : ascii :=
  let n := Ascii.nat_of_ascii c in
  if (Nat.leb 65 n && Nat.leb n 90)%bool then Ascii.ascii_of_nat (n + 32) else c.

(** [s.toLowerCase()], ASCII letters. *)
Fixpoint toLowerCase (s : string) : string :=
  match s with
  | EmptyString => EmptyString
  | String c s' => String (lower_ascii c) (toLowerCase s')
  end.

End Http.
Export Http.

(** ** The client cache (class GithubClient) *)

Module GithubClient.

(** The optional [fetch] implementation handed to the constructor; the
    function itself is opaque, a tag tells two of them apart. *)
Inductive FetchFn := CustomFetch (tag : nat).

(** What [new Octokit({...})] is given in [forHost]. *)
Record Octokit := mkOctokit {
  baseUrl : string;
  request_fetch : option FetchFn;
  request_headers : gmap string string;
  retry_enabled : bool;
  throttle_enabled : bool
}.

(** The instance: its private cache, and a count of the discovery lookups
    it has made. *)
Record State := mkState {
  octokitCache : gmap string Octokit;
  discoveries : nat
}.

(** [new GithubClient(params)]: the cache starts empty. *)
Definition new : State := mkState ∅ 0.

Section ForHost.
(** [discovery.getBaseUrl(pluginId)]; the answer may change from one
    lookup to the next, so it also depends on how many were made before. *)
Variable getBaseUrl : string -> nat -> completion string.
(** [params.fetch?.fetch] *)
Variable fetch : option FetchFn.

Definition forHost (host : string) : Async State Octokit :=
  fun st =>
    match octokitCache st !! host with
    | Some cached => (Return cached, st)
    | None =>
        match getBaseUrl "github" (discoveries st) with
        | Throw e => (Throw e, mkState (octokitCache st) (S (discoveries st)))
        | Return base =>
            let octokit :=
              mkOctokit base fetch {[ "github-host" := host ]} false false in
            (Return octokit,
             mkState (<[host := octokit]> (octokitCache st)) (S (discoveries st)))
        end
    end.

(** [after st0 st]: [st] is reached from [st0] by [forHost] calls, one
    after another. *)
Inductive after (st0 : State) : State -> Prop :=
| after_refl : after st0 st0
| after_call st host : after st0 st -> after st0 (snd (forHost host st)).

(** The states of an instance: created empty, then called. *)
Definition reachable (st : State) : Prop := after new st.

End ForHost.

End GithubClient.

(** ** The backend plugin: client factory (octokit.ts) and proxy router
       (router.ts) *)

Module Backend.

(** What [new OctokitClient({...})] is given: token, API base URL, the retry
    policy; the two throttle callbacks are [onRateLimit] and
    [onSecondaryRateLimit] below. *)
Record OctokitClient := mkClient {
  auth : option string;
  baseUrl : option string;
  retries : Z;
  doNotRetry : list string
}.

(** A GitHub integration found by [integrations.github.byUrl]. *)
Record GithubIntegrationConfig := mkConfig {
  host : string;
  apiBaseUrl : option string
}.
Record GithubIntegration := mkIntegration { config : GithubIntegrationConfig }.

Inductive LogEntry :=
| LogWarn (msg : string)
| LogError (msg : string)
| LogException (e : JsError).

(** [octokit.request({ method, url, data })] *)
Record UpstreamRequest := mkUpstream {
  via : OctokitClient;
  up_method : string;
  up_url : string;
  up_data : Json
}.

Record UpstreamResponse := mkResponse {
  status : Z;
  headers : gmap string HeaderValue;
  data : Json
}.

(** The express response object: what has been written to it. *)
Record Res := mkRes {
  statusCode : option Z;
  resHeaders : gmap string HeaderValue;
  resBody : option string
}.
Definition fresh_res : Res := mkRes None ∅ None.

(** Everything the backend touches: the logger, the credentials provider
    (lookups made), the clients constructed, the requests sent upstream and
    the response under construction. *)
Record World := mkWorld {
  log : list LogEntry;
  credentialLookups : list string;
  clients : list OctokitClient;
  upstream : list UpstreamRequest;
  res : Res
}.

Definition logger (entry : LogEntry) : Async World unit :=
  modify (fun w => mkWorld (log w ++ [entry])%list (credentialLookups w)
                           (clients w) (upstream w) (res w)).
Definition record_lookup (url : string) : Async World unit :=
  modify (fun w => mkWorld (log w) (credentialLookups w ++ [url])%list
                           (clients w) (upstream w) (res w)).
Definition record_client (c : OctokitClient) : Async World unit :=
  modify (fun w => mkWorld (log w) (credentialLookups w)
                           (clients w ++ [c])%list (upstream w) (res w)).
Definition record_upstream (r : UpstreamRequest) : Async World unit :=
  modify (fun w => mkWorld (log w) (credentialLookups w) (clients w)
                           (upstream w ++ [r])%list (res w)).
Definition set_res (r : Res) : Async World unit :=
  modify (fun w => mkWorld (log w) (credentialLookups w) (clients w)
                           (upstream w) r).

(** The throttle callbacks: warn, then ask for a retry. *)
Definition onRateLimit (retryAfter : Z) (method url : string) (retryCount : Z)
  : Async World bool :=
  (logger (LogWarn ("Primary rate limit exceeded for request " +:+ method +:+ " "
                    +:+ url +:+ ". Retrying in " +:+ pretty retryAfter
                    +:+ " seconds (retry count: " +:+ pretty retryCount +:+ ").")) ;;;
   ret true)%async.

Definition onSecondaryRateLimit (retryAfter : Z) (method url : string)
           (retryCount : Z) : Async World bool :=
  (logger (LogWarn ("Secondary rate limit triggered for request " +:+ method +:+ " "
                    +:+ url +:+ ". Retrying in " +:+ pretty retryAfter
                    +:+ " seconds (retry count: " +:+ pretty retryCount +:+ ").")) ;;;
   ret true)%async.

Section Collaborators.
(** [credentialsProvider.getCredentials({ url })], its [token] field. *)
Variable getCredentials : string -> completion (option string).
(** [integrations.github.byUrl(url)]: an integration, [undefined], or a
    throw. *)
Variable byUrl : string -> completion (option GithubIntegration).
(** [`${error}`] *)
Variable error_toString : JsError -> string.
(** The GitHub API as seen through a client: the response, or the
    RequestError the client rejects with. *)
Variable octokit_request : UpstreamRequest -> completion UpstreamResponse.
(** [JSON.stringify] *)
Variable JSON_stringify : Json -> string.

(** octokit.ts, lines 273-313 of the reader listing. *)
Definition getOctokit (url : string) : Async World (option OctokitClient) :=
  try_catch
    (record_lookup url ;;;
     token <- lift (getCredentials url) ;;
     integration <- lift (byUrl url) ;;
     let client := mkClient token (integration ≫= (apiBaseUrl ∘ config)) 3
                     ["400"; "401"; "403"; "404"; "422"; "429"; "501"] in
     record_client client ;;;
     ret (Some client))%async
    (fun error =>
       logger (LogError ("Error creating Octokit for url " +:+ url +:+ ": "
                         +:+ error_toString error)) ;;;
       ret None)%async.

(** The inbound request, as the handler reads it. *)
Record Request := mkRequest {
  method : string;
  originalUrl : string;
  req_headers : gmap string string;
  body : Json
}.

(** [error.status || 500] *)
Definition status_or_500 (e : JsError) : Z :=
  match JS.status e with
  | Some n => if Z.eqb n 0 then 500 else n
  | None => 500
  end.

(** router.ts, lines 81-84. *)
Definition filteredHeaders (upstream_headers : gmap string HeaderValue)
  : gmap string HeaderValue :=
  <[ "content-type" := HStr "application/json" ]>
    (delete "content-encoding" (delete "transfer-encoding" upstream_headers)).

(** router.ts, lines 49-96: the catch-all handler. *)
Definition handler (req : Request) : Async World unit :=
  match req_headers req !! "github-host" with
  | None => throw (InputError ("Missing " +:+ dquote +:+ "github-host" +:+ dquote
                               +:+ " header"))
  | Some url =>
      if JS.falsy url
      then throw (InputError ("Missing " +:+ dquote +:+ "github-host" +:+ dquote
                              +:+ " header"))
      else
        try_catch
          (octokit <- getOctokit url ;;
           match octokit with
           | None => throw (Error ("Failed to create Octokit instance for " +:+ url))
           | Some octokit =>
               let updatedUrl := JS.replace (originalUrl req) "/api/github" "" in
               let sent := mkUpstream octokit (method req) updatedUrl (body req) in
               record_upstream sent ;;;
               response <- lift (octokit_request sent) ;;
               (* res.writeHead(status, headers); res.end(body) *)
               set_res (mkRes (Some (status response))
                              (filteredHeaders (headers response))
                              (Some (JSON_stringify (data response))))
           end)%async
          (fun error =>
             logger (LogException error) ;;;
             (* res.status(...).json({ error: error.message }); express's
                json() sets the JSON content type itself *)
             w_res <- gets res ;;
             set_res (mkRes (Some (status_or_500 error))
                            (<[ "content-type" := HStr "application/json" ]>
                               (resHeaders w_res))
                            (Some (JSON_stringify
                                     (JObj [("error", JStr (JS.message error))])))))%async
  end.

End Collaborators.

End Backend.

(** ** The URL reader (reader.ts, class GitHubUrlReader) *)

Module Reader.

(** An entry of the recursive tree listing ([response.data.tree]); every
    field is optional in the client's type. *)
Record TreeItem := mkItem {
  path : option string;
  mode : option string;
  type : option string;
  sha : option string;
  size : option Z;
  url : option string
}.

(** [item.type === 'blob'] *)
Definition is_blob (item : TreeItem) : bool :=
  match type item with
  | Some t => String.eqb t "blob"
  | None => false
  end.

(** [item.path?.startsWith(path)], as a condition: [undefined] is falsy. *)
Definition path_startsWith (item : TreeItem) (sub : string) : bool :=
  match path item with
  | Some p => JS.startsWith p sub
  | None => false
  end.

(** readTree, lines 129-131: the predicate passed to [filter]. *)
Definition readTree_keep (sub : string) (item : TreeItem) : bool :=
  is_blob item && (JS.falsy sub || path_startsWith item sub).

Definition readTree_files (sub : string) (tree : list TreeItem) : list TreeItem :=
  List.filter (readTree_keep sub) tree.

(** [x!] on an optional string handed to code that reads it as a string
    (the glob matcher splits it, path.join checks its type): the assertion
    is erased at run time and the reader of [undefined] throws a
    TypeError.  [what] names the value; the engine's wording of the
    message is not reproduced. *)
Definition non_null (what : string) (x : option string) : completion string :=
  match x with
  | Some s => Return s
  | None => Throw (TypeError (what +:+ " is undefined"))
  end.

Section Search.
(** [minimatch(p, pattern)], called without options. *)
Variable minimatch : string -> string -> bool.

(** search, lines 201-203: the predicate passed to [filter].  [&&]
    short-circuits, so the matcher only sees blob entries. *)
Definition search_keep (sub : string) (item : TreeItem) : completion bool :=
  if is_blob item
  then match non_null "path" (path item) with
       | Return p => Return (minimatch p (JS.or_else sub "**"))
       | Throw e => Throw e
       end
  else Return false.

(** [tree.filter(pred)] with a predicate that may throw: the first
    throw, in list order, aborts the filter. *)
Fixpoint filter_throwing (pred : TreeItem -> completion bool)
         (tree : list TreeItem) : completion (list TreeItem) :=
  match tree with
  | [] => Return []
  | item :: rest =>
      match pred item with
      | Throw e => Throw e
      | Return b =>
          match filter_throwing pred rest with
          | Throw e => Throw e
          | Return kept => Return (if b then item :: kept else kept)
          end
      end
  end.

Definition search_files (sub : string) (tree : list TreeItem)
  : completion (list TreeItem) :=
  filter_throwing (search_keep sub) tree.
End Search.

(** *** The three read operations *)

(** The fields of git-url-parse's result that the reader uses. *)
Record GitUrl := mkGitUrl {
  source : string;
  owner : string;
  name : string;
  filepath : string;
  ref : string
}.

(** What [parseGithubUrl] returns. *)
Record ParsedUrl := mkParsed {
  url_host : string;
  url_owner : string;
  url_repo : string;
  url_path : string;
  url_ref : string
}.

(** Parameters of [client.repos.getContent]; [gc_path] is optional because
    readTree and search pass [file.path!]. *)
Record GetContentParams := mkGetContent {
  gc_owner : string;
  gc_repo : string;
  gc_path : option string;
  gc_ref : string;
  gc_headers : gmap string string
}.

(** Parameters of [client.git.getTree]. *)
Record GetTreeParams := mkGetTree {
  gt_owner : string;
  gt_repo : string;
  tree_sha : string;
  recursive : string
}.

(** [response.data] of getContent: an object with [content] and
    [encoding], or anything else (a directory listing, a submodule). *)
Inductive ContentData :=
| FileData (encoding content : string)
| OtherData.

Record ContentResponse := mkContent {
  content_headers : gmap string string;
  content_data : ContentData
}.

Record TreeResponse := mkTree {
  tree_headers : gmap string string;
  tree : list TreeItem
}.

Inductive Call :=
| GetContent (client : GithubClient.Octokit) (params : GetContentParams)
| GetTree (client : GithubClient.Octokit) (params : GetTreeParams).

Record ReadUrlResponse := mkReadUrl {
  buffer : string;
  etag : option string;
  lastModifiedAt : option string
}.

(** readTree's result: the selected entries behind the lazy [files]
    accessor, the temporary directory, the listing's etag.  (The [archive]
    accessor streams files and is left out.) *)
Record ReadTreeResponse := mkReadTree {
  rt_files : list TreeItem;
  rt_dir : string;
  rt_etag : option string
}.

(** search's result: per selected entry its web URL and the entry the lazy
    [content] accessor will fetch. *)
Record SearchResponse := mkSearch {
  sr_files : list (string * TreeItem);
  sr_etag : option string
}.

Section Operations.
(** The state of the GithubService behind [this.#github], and its
    [forHost]. *)
Variable Service : Type.
Variable forHost : string -> Async Service GithubClient.Octokit.
(** git-url-parse. *)
Variable parseGitUrl : string -> completion GitUrl.
(** The GitHub API behind a per-host client.  The client rejects with a
    RequestError carrying [status] for every response outside 2xx, 304
    included. *)
Variable repos_getContent : GithubClient.Octokit -> GetContentParams -> completion ContentResponse.
Variable git_getTree : GithubClient.Octokit -> GetTreeParams -> completion TreeResponse.
(** [Buffer.from(content, 'base64')] *)
Variable base64_decode : string -> string.
(** Node's os, path and fs: [fs_mkdtemp prefix n] is the outcome of the
    [n]-th temporary directory request. *)
Variable tmpdir : string.
Variable join : string -> string -> string.
Variable fs_mkdtemp : string -> nat -> completion string.
Variable fs_mkdir : string -> completion unit.
Variable fs_writeFile : string -> string -> completion unit.
Variable minimatch : string -> string -> bool.

(** What a read operation touches: the service, the requests made through
    its clients (oldest first), the directories made and files written. *)
Record World := mkWorld {
  service : Service;
  calls : list Call;
  dirs : list string;
  written : gmap string string
}.

Definition github_forHost (host : string) : Async World GithubClient.Octokit :=
  fun w => let (c, s) := forHost host (service w) in
           (c, mkWorld s (calls w) (dirs w) (written w)).

Definition getContent (client : GithubClient.Octokit) (params : GetContentParams)
  : Async World ContentResponse :=
  fun w => (repos_getContent client params,
            mkWorld (service w) (calls w ++ [GetContent client params])%list
                    (dirs w) (written w)).

Definition getTree (client : GithubClient.Octokit) (params : GetTreeParams)
  : Async World TreeResponse :=
  fun w => (git_getTree client params,
            mkWorld (service w) (calls w ++ [GetTree client params])%list
                    (dirs w) (written w)).

Definition mkdtemp (prefix : string) : Async World string :=
  fun w => match fs_mkdtemp prefix (length (dirs w)) with
           | Return d => (Return d, mkWorld (service w) (calls w)
                                            (dirs w ++ [d])%list (written w))
           | Throw e => (Throw e, w)
           end.

Definition mkdir (d : string) : Async World unit :=
  fun w => match fs_mkdir d with
           | Return _ => (Return tt, mkWorld (service w) (calls w)
                                             (dirs w ++ [d])%list (written w))
           | Throw e => (Throw e, w)
           end.

Definition writeFile (file : string) (contents : string) : Async World unit :=
  fun w => match fs_writeFile file contents with
           | Return _ => (Return tt, mkWorld (service w) (calls w) (dirs w)
                                             (<[file := contents]> (written w)))
           | Throw e => (Throw e, w)
           end.

(** [Promise.all(tasks)]: every task runs; the result is the list of their
    values, or a rejection if some task rejects.  The tasks are run one
    after the other in list order and the first rejection in that order is
    the one reported. *)
Fixpoint Promise_all {A} (tasks : list (Async World A)) : Async World (list A) :=
  match tasks with
  | [] => ret []
  | task :: rest =>
      fun w =>
        match task w with
        | (Return a, w1) =>
            match Promise_all rest w1 with
            | (Return l, w2) => (Return (a :: l), w2)
            | (Throw e, w2) => (Throw e, w2)
            end
        | (Throw e, w1) => (Throw e, snd (Promise_all rest w1))
        end
  end.

(** Lines 42-62. *)
Definition parseGithubUrl (url : string) : completion ParsedUrl :=
  match parseGitUrl url with
  | Throw e => Throw e
  | Return parsed =>
      if JS.falsy (source parsed)
      then Throw (Error ("Invalid Git URL: " +:+ url))
      else Return (mkParsed (source parsed) (owner parsed) (name parsed)
                            (JS.or_else (filepath parsed) "")
                            (JS.or_else (ref parsed) "main"))
  end.

(** [options?.etag ? { 'If-None-Match': options.etag } : {}] *)
Definition conditional_headers (etag : option string) : gmap string string :=
  match etag with
  | Some e => if JS.falsy e then ∅ else {[ "If-None-Match" := e ]}
  | None => ∅
  end.

(** [headers['last-modified'] ? new Date(...) : undefined]; the date is
    kept as the header text it is built from. *)
Definition last_modified (headers : gmap string string) : option string :=
  match headers !! "last-modified" with
  | Some v => if JS.falsy v then None else Some v
  | None => None
  end.

(** Lines 67-109.  [options_etag] is [options?.etag]. *)
Definition readUrl (url : string) (options_etag : option string)
  : Async World ReadUrlResponse :=
  (parsed <- lift (parseGithubUrl url) ;;
   client <- github_forHost (url_host parsed) ;;
   try_catch
     (response <- getContent client
                    (mkGetContent (url_owner parsed) (url_repo parsed)
                                  (Some (url_path parsed)) (url_ref parsed)
                                  (conditional_headers options_etag)) ;;
      match content_data response with
      | OtherData => throw (Error ("Expected file but got a directory: " +:+ url))
      | FileData encoding content =>
          if negb (String.eqb encoding "base64")
          then throw (Error ("Unsupported encoding: " +:+ encoding))
          else ret (mkReadUrl (base64_decode content)
                              (content_headers response !! "etag")
                              (last_modified (content_headers response)))
      end)
     (fun error =>
        match JS.status error with
        | Some 304 => throw NotModifiedError
        | _ => throw error
        end))%async.

(** Lines 136-161: the task started for every selected entry. *)
Definition fetch_blob (client : GithubClient.Octokit) (parsed : ParsedUrl)
           (tempDir : string) (file : TreeItem) : Async World unit :=
  (fileResponse <- getContent client
                     (mkGetContent (url_owner parsed) (url_repo parsed)
                                   (path file) (url_ref parsed) ∅) ;;
   match content_data fileResponse with
   | OtherData => ret tt
   | FileData encoding content =>
       if negb (String.eqb encoding "base64")
       then throw (Error ("Unsupported encoding: " +:+ encoding))
       else
         p <- lift (non_null "path" (path file)) ;;
         let localPath := join tempDir p in
         mkdir (join localPath "..") ;;;
         writeFile localPath (base64_decode content)
   end)%async.

(** Lines 114-181. *)
Definition readTree (url : string) : Async World ReadTreeResponse :=
  (parsed <- lift (parseGithubUrl url) ;;
   client <- github_forHost (url_host parsed) ;;
   response <- getTree client
                 (mkGetTree (url_owner parsed) (url_repo parsed)
                            (JS.or_else (url_ref parsed) "main") "true") ;;
   let files := readTree_files (url_path parsed) (tree response) in
   tempDir <- mkdtemp (join tmpdir "url-reader-") ;;
   Promise_all (List.map (fetch_blob client parsed tempDir) files) ;;;
   ret (mkReadTree files tempDir (tree_headers response !! "etag")))%async.

Definition readFile (file : string) : Async World string :=
  fun w => match written w !! file with
           | Some contents => (Return contents, w)
           | None => (Throw (Error ("ENOENT: no such file or directory, open "
                                    +:+ file)), w)
           end.

(** Lines 165-169: the [files] accessor of readTree's result lists, per
    selected entry, [file.path!] and a lazy [content] accessor. *)
Definition readTree_listing (r : ReadTreeResponse) : list (option string * TreeItem) :=
  List.map (fun file => (path file, file)) (rt_files r).

(** Line 168: the [content] accessor of one listed entry. *)
Definition readTree_content (r : ReadTreeResponse) (file : TreeItem)
  : Async World string :=
  (p <- lift (non_null "path" (path file)) ;;
   readFile (join (rt_dir r) p))%async.

(** Line 208: the template string; an absent path prints as "undefined". *)
Definition blob_url (parsed : ParsedUrl) (file : TreeItem) : string :=
  "https://github.com/" +:+ url_owner parsed +:+ "/" +:+ url_repo parsed
  +:+ "/blob/" +:+ url_ref parsed +:+ "/" +:+ default "undefined" (path file).

(** Lines 186-236. *)
Definition search (url : string) : Async World SearchResponse :=
  (parsed <- lift (parseGithubUrl url) ;;
   client <- github_forHost (url_host parsed) ;;
   response <- getTree client
                 (mkGetTree (url_owner parsed) (url_repo parsed)
                            (JS.or_else (url_ref parsed) "main") "true") ;;
   files <- lift (search_files minimatch (url_path parsed) (tree response)) ;;
   ret (mkSearch (List.map (fun file => (blob_url parsed file, file)) files)
                 (tree_headers response !! "etag")))%async.

(** Lines 209-231: the lazy [content] accessor of a search result. *)
Definition search_content (client : GithubClient.Octokit) (parsed : ParsedUrl)
           (file : TreeItem) : Async World string :=
  (fileResponse <- getContent client
                     (mkGetContent (url_owner parsed) (url_repo parsed)
                                   (path file) (url_ref parsed) ∅) ;;
   match content_data fileResponse with
   | OtherData =>
       throw (Error ("Expected file but got directory: "
                     +:+ default "undefined" (path file)))
   | FileData encoding content =>
       if negb (String.eqb encoding "base64")
       then throw (Error ("Unsupported encoding: " +:+ encoding))
       else ret (base64_decode content)
   end)%async.

End Operations.

End Reader.

(** ** Rate-limit metrics (rateLimitMetricsMiddleware) *)

Module Metrics.

(** JavaScript white space that [parseInt] skips (the ASCII part). *)
Definition is_space (c : ascii) : bool :=
  let n := Ascii.nat_of_ascii c in
  (Nat.eqb n 32 || (Nat.leb 9 n && Nat.leb n 13))%bool.

Fixpoint skip_space (s : string) : string :=
  match s with
  | String c s' => if is_space c then skip_space s' else s
  | EmptyString => s
  end.

Definition digit (c : ascii) : option Z :=
  let n := Ascii.nat_of_ascii c in
  if (Nat.leb 48 n && Nat.leb n 57)%bool then Some (Z.of_nat (n - 48)) else None.

(** The longest run of decimal digits at the front of [s], as a number;
    [acc] is what has been read so far, [None] before the first digit. *)
Fixpoint leading_digits (acc : option Z) (s : string) : option Z :=
  match s with
  | EmptyString => acc
  | String c s' =>
      match digit c with
      | Some d => leading_digits (Some (10 * default 0 acc + d)) s'
      | None => acc
      end
  end.

(** [parseInt(s, 10)]; [None] is NaN.  (Exact integers: the rounding of
    values beyond 2^53 is not represented.) *)
Definition parseInt (s : string) : option Z :=
  match skip_space s with
  | String "-"%char s' => Z.opp <$> leading_digits None s'
  | String "+"%char s' => leading_digits None s'
  | s' => leading_digits None s'
  end.

(** What [httpAuth.credentials(req)] resolves to, as [auth.isPrincipal]
    classifies it. *)
Inductive Credentials :=
| UserPrincipal (userEntityRef : string)
| ServicePrincipal (subject : string)
| OtherPrincipal.

Record RateLimitMetricsParams := mkParams {
  externalApi : string;
  limitHeader : option string;
  remainingHeader : option string;
  resetHeader : option string
}.

Inductive Gauge :=
| rateLimitMetric
| rateLimitRemainingMetric
| rateLimitResetMetric.

(** The [name] each gauge is created with. *)
Definition gauge_name (g : Gauge) : string :=
  match g with
  | rateLimitMetric => "external_api_rate_limit"
  | rateLimitRemainingMetric => "external_api_rate_limit_remaining"
  | rateLimitResetMetric => "external_api_rate_limit_reset"
  end.

(** One [gauge.set(labels, value)] call; a [value] of [None] is NaN. *)
Record Observation := mkObs {
  gauge : Gauge;
  invoked_by : option string;
  external_api : string;
  value : option Z
}.

(** [res.getHeader(name)]: names are compared in lower case. *)
Definition getHeader (res_headers : gmap string HeaderValue) (name : string)
  : option HeaderValue :=
  res_headers !! toLowerCase name.

Section Middleware.
(** [httpAuth.credentials(req)], for the request at hand. *)
Variable credentials : completion Credentials.
(** [Date.now()] *)
Variable now_ms : Z.

Definition set (g : Gauge) (invokedBy : option string) (api : string)
           (v : option Z) : Async (list Observation) unit :=
  modify (fun emitted => (emitted ++ [mkObs g invokedBy api v])%list).

(** Lines 131-159: one [if (typeof h === 'string')] block. *)
Definition observe (g : Gauge) (invokedBy : option string) (api : string)
           (h : option HeaderValue) (convert : string -> option Z)
  : Async (list Observation) unit :=
  match h with
  | Some (HStr s) => set g invokedBy api (convert s)
  | _ => ret tt
  end.

(** Lines 105-160: the listener run when the response has finished.  The
    world is the list of observations handed to the gauges. *)
Definition on_finish (params : RateLimitMetricsParams)
           (res_headers : gmap string HeaderValue) : Async (list Observation) unit :=
  (creds <- lift credentials ;;
   let invokedBy :=
     match creds with
     | UserPrincipal userEntityRef => Some userEntityRef
     | ServicePrincipal subject => Some subject
     | OtherPrincipal => None
     end in
   let limit := getHeader res_headers (default "X-RateLimit-Limit" (limitHeader params)) in
   let remaining :=
     getHeader res_headers
               (default "X-RateLimit-Overall-Remaining" (remainingHeader params)) in
   let reset :=
     getHeader res_headers
               (default "X-External-Api-RateLimit-Reset" (resetHeader params)) in
   observe rateLimitMetric invokedBy (externalApi params) limit parseInt ;;;
   observe rateLimitRemainingMetric invokedBy (externalApi params) remaining parseInt ;;;
   observe rateLimitResetMetric invokedBy (externalApi params) reset
           (fun s => (fun n => n - now_ms / 1000) <$> parseInt s))%async.

(** The header a gauge reads. *)
Definition header_of (params : RateLimitMetricsParams) (g : Gauge) : string :=
  match g with
  | rateLimitMetric => default "X-RateLimit-Limit" (limitHeader params)
  | rateLimitRemainingMetric =>
      default "X-RateLimit-Overall-Remaining" (remainingHeader params)
  | rateLimitResetMetric =>
      default "X-External-Api-RateLimit-Reset" (resetHeader params)
  end.

End Middleware.

End Metrics.

(** ** Sample inputs and specification-side definitions *)

Module Examples.
Import Reader.

(** A regular file entry of a tree listing. *)
Definition blob (p : string) : TreeItem :=
  mkItem (Some p) (Some "100644") (Some "blob") (Some "3b18e512dba79e4c8300dd08aeb37f8e728b8dad")
         (Some 12) None.

(** A blob entry without a [path]; the field is optional in the listing's
    type. *)
Definition pathless_blob : TreeItem :=
  mkItem None (Some "100644") (Some "blob")
         (Some "3b18e512dba79e4c8300dd08aeb37f8e728b8dad") (Some 12) None.

Definition dot_tree : list TreeItem := [blob ".gitignore"; blob "README.md"].


(** Collaborators and requests for the backend. *)
Definition token_for (url : string) : completion (option string) :=
  if String.eqb url "github.com" then Return (Some "ghs_token")
  else Throw (JS.Error ("No credentials for " +:+ url)).

Definition github_integration : Backend.GithubIntegration :=
  Backend.mkIntegration (Backend.mkConfig "github.com" (Some "https://api.github.com")).

Definition integration_for (url : string) : completion (option Backend.GithubIntegration) :=
  Return (Some github_integration).

Definition show_error (e : JsError) : string := JS.name e +:+ ": " +:+ JS.message e.

Definition github_client : Backend.OctokitClient :=
  Backend.mkClient (Some "ghs_token") (Some "https://api.github.com") 3
                   ["400"; "401"; "403"; "404"; "422"; "429"; "501"].

Definition upstream_response : Backend.UpstreamResponse :=
  Backend.mkResponse 200
    (<[ "transfer-encoding" := HStr "chunked" ]>
       (<[ "etag" := HStr "W/abc" ]>
          {[ "content-type" := HStr "application/json; charset=utf-8" ]}))
    (JObj [("name", JStr "x")]).

Definition upstream_ok (r : Backend.UpstreamRequest) : completion Backend.UpstreamResponse :=
  Return upstream_response.

Definition stringify_stub (j : Json) : string :=
  match j with
  | JNull => "null"
  | _ => "{...}"
  end.

Definition empty_world : Backend.World := Backend.mkWorld [] [] [] [] Backend.fresh_res.

Definition get_contents : Backend.Request :=
  Backend.mkRequest "GET" "/api/github/repos/o/r/contents/x"
                    {[ "github-host" := "github.com" ]} JNull.

Definition no_host_header : Backend.Request :=
  Backend.mkRequest "GET" "/api/github/repos/o/r/contents/x"
                    {[ "accept" := "application/json" ]} JNull.

Definition unknown_host : Backend.Request :=
  Backend.mkRequest "GET" "/api/github/user" {[ "github-host" := "ghe.example.com" ]} JNull.


(** Discovery that always answers with the backend's own URL. *)
Definition discovery (pluginId : string) (n : nat) : completion string :=
  Return ("http://localhost:7007/api/" +:+ pluginId).


(** Collaborators for the reader: a repository o/r on github.com whose
    tree holds a.txt and b.txt; fetching b.txt fails, and a conditional
    fetch is answered with 304. *)
Definition parse_url (url : string) : completion GitUrl :=
  Return (mkGitUrl "github.com" "o" "r" "" "").

Definition parse_file_url (url : string) : completion GitUrl :=
  Return (mkGitUrl "github.com" "o" "r" "a.txt" "").

Definition tree_of (client : GithubClient.Octokit) (params : GetTreeParams)
  : completion TreeResponse :=
  Return (mkTree {[ "etag" := "W/tree" ]} [blob "a.txt"; blob "b.txt"]).

Definition content_of (client : GithubClient.Octokit) (params : GetContentParams)
  : completion ContentResponse :=
  match gc_path params with
  | Some "b.txt" => Throw (mkError "HttpError" "Server Error" (Some 500))
  | _ =>
      match gc_headers params !! "If-None-Match" with
      | Some _ => Throw (mkError "HttpError" "Not modified" (Some 304))
      | None => Return (mkContent {[ "etag" := "W/a" ]} (FileData "base64" "aGk="))
      end
  end.

(** The same repository with a.txt only, and one with a dot-file. *)
Definition tree_of_a (client : GithubClient.Octokit) (params : GetTreeParams)
  : completion TreeResponse :=
  Return (mkTree {[ "etag" := "W/tree" ]} [blob "a.txt"]).

Definition tree_of_dot (client : GithubClient.Octokit) (params : GetTreeParams)
  : completion TreeResponse :=
  Return (mkTree {[ "etag" := "W/tree" ]} dot_tree).

Definition decode_stub (content : string) : string := content.
Definition join_paths (a b : string) : string := a +:+ "/" +:+ b.
Definition mkdtemp_ok (prefix : string) (n : nat) : completion string :=
  Return (prefix +:+ "XXXXXX").
Definition mkdir_ok (d : string) : completion unit := Return tt.
Definition writeFile_ok (f contents : string) : completion unit := Return tt.

Definition reader_world : World GithubClient.State :=
  mkWorld GithubClient.State GithubClient.new [] [] ∅.

Definition host_client : GithubClient.Octokit :=
  GithubClient.mkOctokit "http://localhost:7007/api/github" None
                         {[ "github-host" := "github.com" ]} false false.

End Examples.

(** An entry the default glob accepts: its path has no segment that begins
    with a period. *)
Definition shown (item : Reader.TreeItem) : bool :=
  match Reader.path item with
  | Some p => Glob.globstar p
  | None => false
  end.

(** An entry whose path [minimatch] accepts under the default pattern. *)
Definition matched (minimatch : string -> string -> bool) (item : Reader.TreeItem)
  : bool :=
  match Reader.path item with
  | Some p => minimatch p "**"
  | None => false
  end.

(** A client as [forHost] builds it for [host]: tagged with the host, its
    own retry and throttling off. *)
Definition tagged (host : string) (c : GithubClient.Octokit) : Prop :=
  GithubClient.request_headers c !! "github-host" = Some host
  /\ GithubClient.retry_enabled c = false
  /\ GithubClient.throttle_enabled c = false.

(** The label a principal is reported under. *)
Definition principal_label (creds : Metrics.Credentials) : option string :=
  match creds with
  | Metrics.UserPrincipal userEntityRef => Some userEntityRef
  | Metrics.ServicePrincipal subject => Some subject
  | Metrics.OtherPrincipal => None
  end.

(** The number a gauge is set to for the header text [s]: parseInt, and for
    the reset gauge the distance from now in seconds; [None] is NaN. *)
Definition gauge_value (now_ms : Z) (g : Metrics.Gauge) (s : string) : option Z :=
  match g with
  | Metrics.rateLimitResetMetric => (fun n => n - now_ms / 1000) <$> Metrics.parseInt s
  | _ => Metrics.parseInt s
  end.

(** What one gauge is expected to receive: one observation if its header
    holds a string, nothing otherwise. *)
Definition expected (now_ms : Z) (params : Metrics.RateLimitMetricsParams)
           (creds : Metrics.Credentials) (res_headers : gmap string HeaderValue)
           (g : Metrics.Gauge) : list Metrics.Observation :=
  match Metrics.getHeader res_headers (Metrics.header_of params g) with
  | Some (HStr s) =>
      [Metrics.mkObs g (principal_label creds) (Metrics.externalApi params)
                     (gauge_value now_ms g s)]
  | _ => []
  end.

(** ** The default service (githubService.ts, class DefaultGithubService) *)

Module DefaultGithubService.

Section Service.
(** [discovery.getBaseUrl], as for [GithubClient]. *)
Variable getBaseUrl : string -> nat -> completion string.

(** The constructor hands [{ discovery }] to [new GithubClient]: no custom
    [fetch]. *)
Definition new : GithubClient.State := GithubClient.new.

(** Lines 36-38: [forHost] delegates to the client cache. *)
Definition forHost (url : string) : Async GithubClient.State GithubClient.Octokit :=
  GithubClient.forHost getBaseUrl None url.

End Service.

End DefaultGithubService.

(** ** The earlier router (the router variant keyed on the github-url
       header) *)

Module LegacyRouter.
Import Backend.

Section Collaborators.
Variable getCredentials : string -> completion (option string).
Variable byUrl : string -> completion (option GithubIntegration).
Variable error_toString : JsError -> string.
Variable octokit_request : UpstreamRequest -> completion UpstreamResponse.
Variable JSON_stringify : Json -> string.
(** [error.headers]; the empty object when the error has none. *)
Variable error_headers : JsError -> gmap string HeaderValue.
(** Express's [res.set(obj)]: the response headers after every field of
    [obj] has been set on them. *)
Variable res_set : gmap string HeaderValue -> gmap string HeaderValue
                   -> gmap string HeaderValue.

(** [res.status(code).set(headers).json(body)]; json() adds the JSON
    content type when none is set. *)
Definition respond (code : Z) (hdrs : gmap string HeaderValue) (body : Json)
  : Async World unit :=
  (w_res <- gets res ;;
   let set := res_set hdrs (resHeaders w_res) in
   set_res (mkRes (Some code)
                  (match set !! "content-type" with
                   | Some _ => set
                   | None => <[ "content-type" := HStr "application/json" ]> set
                   end)
                  (Some (JSON_stringify body))))%async.

(** Lines 47-80 of the variant.  There is no test of the factory's result:
    calling [request] on [undefined] is a TypeError, thrown inside the try
    block. *)
Definition handler (req : Request) : Async World unit :=
  match req_headers req !! "github-url" with
  | None => throw (InputError ("Missing " +:+ dquote +:+ "github-url" +:+ dquote
                               +:+ " header"))
  | Some url =>
      if JS.falsy url
      then throw (InputError ("Missing " +:+ dquote +:+ "github-url" +:+ dquote
                              +:+ " header"))
      else
        try_catch
          (octokit <- getOctokit getCredentials byUrl error_toString url ;;
           match octokit with
           | None => throw (TypeError "octokit is undefined")
           | Some octokit =>
               let sent := mkUpstream octokit (method req) (originalUrl req) (body req) in
               record_upstream sent ;;;
               response <- lift (octokit_request sent) ;;
               respond (status response) (headers response) (data response)
           end)%async
          (fun error =>
             logger (LogException error) ;;;
             respond (status_or_500 error) (error_headers error)
                     (JObj [("error", JStr (JS.message error))]))%async
  end.

End Collaborators.

End LegacyRouter.

(** ** Further specification-side definitions and sample inputs *)

(** [s.includes(pat)] *)
Fixpoint includes (s pat : string) : bool :=
  String.prefix pat s
  || match s with
     | EmptyString => false
     | String _ s' => includes s' pat
     end.

(** A blob entry that has no path. *)
Definition pathless (item : Reader.TreeItem) : bool :=
  Reader.is_blob item
  && match Reader.path item with Some _ => false | None => true end.

(** The content request readTree and search make for an entry. *)
Definition blob_request (parsed : Reader.ParsedUrl) (file : Reader.TreeItem)
  : Reader.GetContentParams :=
  Reader.mkGetContent (Reader.url_owner parsed) (Reader.url_repo parsed)
                      (Reader.path file) (Reader.url_ref parsed) ∅.

(** The tree request readTree and search make. *)
Definition tree_request (parsed : Reader.ParsedUrl) : Reader.GetTreeParams :=
  Reader.mkGetTree (Reader.url_owner parsed) (Reader.url_repo parsed)
                   (JS.or_else (Reader.url_ref parsed) "main") "true".

Module MoreExamples.
Import Reader.

(** A URL the parser finds no host in. *)
Definition parse_nothing (url : string) : completion GitUrl :=
  Return (mkGitUrl "" "" "" "" "").

(** Discovery that is down. *)
Definition discovery_down (pluginId : string) (n : nat) : completion string :=
  Throw (JS.Error "discovery unavailable").


Definition empty_host_header : Backend.Request :=
  Backend.mkRequest "GET" "/api/github/user" {[ "github-host" := "" ]} JNull.

Definition legacy_request : Backend.Request :=
  Backend.mkRequest "GET" "/api/github/user" {[ "github-url" := "github.com" ]} JNull.

Definition legacy_unknown : Backend.Request :=
  Backend.mkRequest "GET" "/api/github/user" {[ "github-url" := "ghe.example.com" ]} JNull.

Definition no_error_headers (e : JsError) : gmap string HeaderValue := ∅.

(** [res.set(obj)] without Express's per-header rules: a plain merge. *)
Definition merge_headers (obj current : gmap string HeaderValue)
  : gmap string HeaderValue := obj ∪ current.

(** A directory response for every path. *)
Definition content_directory (client : GithubClient.Octokit) (params : GetContentParams)
  : completion ContentResponse :=
  Return (mkContent ∅ OtherData).

(** A URL that names b.txt, whose fetch the sample upstream rejects. *)
Definition parse_b_url (url : string) : completion GitUrl :=
  Return (mkGitUrl "github.com" "o" "r" "b.txt" "").

Definition mkdtemp_fails (prefix : string) (n : nat) : completion string :=
  Throw (JS.Error "ENOSPC: no space left on device, mkdtemp").

(** A world whose service already holds the client for github.com. *)
Definition warm_world : World GithubClient.State :=
  mkWorld GithubClient.State
          (GithubClient.mkState {[ "github.com" := Examples.host_client ]} 1)
          [] [] ∅.

End MoreExamples.

(** * Properties *)

(** ** Strings *)

Lemma prefix_app (pat rest : string) : String.prefix pat (pat +:+ rest) = true.
Proof.
  induction pat as [|c pat IH]; simpl.
  - now destruct rest.
  - destruct (ascii_dec c c) as [_|n]; [exact IH | now destruct n].
Qed.

Lemma substring_all (s : string) : String.substring 0 (String.length s) s = s.
Proof. induction s as [|c s IH]; simpl; [reflexivity | now rewrite IH]. Qed.

Lemma substring_app (pat rest : string) :
  String.substring (String.length pat)
                   (String.length (pat +:+ rest) - String.length pat)
                   (pat +:+ rest) = rest.
Proof.
  induction pat as [|c pat IH]; simpl.
  - rewrite Nat.sub_0_r. apply substring_all.
  - exact IH.
Qed.

(** Replacing a pattern the string begins with removes that beginning. *)
Lemma replace_head (pat rest rep : string) :
  JS.replace (pat +:+ rest) pat rep = rep +:+ rest.
Proof.
  assert (E : forall s, JS.replace s pat rep =
    if String.prefix pat s
    then rep +:+ String.substring (String.length pat)
                                  (String.length s - String.length pat) s
    else match s with
         | EmptyString => EmptyString
         | String c s' => String c (JS.replace s' pat rep)
         end) by (intros []; reflexivity).
  rewrite E, prefix_app, substring_app. reflexivity.
Qed.

Lemma falsy_empty (s : string) : JS.falsy s = true <-> s = "".
Proof. destruct s; simpl; split; congruence. Qed.

(** ** The tree filters *)

Section Filters.
Import Reader.

Lemma is_blob_spec (item : TreeItem) :
  is_blob item = true <-> type item = Some "blob".
Proof.
  unfold is_blob. destruct (type item) as [t|]; [|split; congruence].
  rewrite String.eqb_eq. split; congruence.
Qed.

(** With a sub-path the filter keeps exactly the blob entries that have a
    path beginning with it. *)
Lemma readTree_keep_sub (sub : string) (item : TreeItem) :
  sub <> "" ->
  readTree_keep sub item = true <->
  type item = Some "blob" /\
  exists p, path item = Some p /\ JS.startsWith p sub = true.
Proof.
  intros Hsub. unfold readTree_keep, path_startsWith.
  rewrite andb_true_iff, is_blob_spec.
  destruct (JS.falsy sub) eqn:F; [apply falsy_empty in F; contradiction|].
  simpl. destruct (path item) as [p|].
  - split; intros [Hb H]; split; eauto. destruct H as (q & [= <-] & H). exact H.
  - split; intros [Hb H]; [discriminate|]. destruct H as (q & [=] & _).
Qed.

(** Without a sub-path the filter keeps every blob entry. *)
Lemma readTree_keep_all (item : TreeItem) :
  readTree_keep "" item = is_blob item.
Proof. unfold readTree_keep. simpl. apply andb_true_r. Qed.

Lemma in_readTree_files (sub : string) (tree : list TreeItem) (item : TreeItem) :
  In item (readTree_files sub tree) <-> In item tree /\ readTree_keep sub item = true.
Proof. unfold readTree_files. apply filter_In. Qed.

End Filters.

Section FilterClaims.
Import Reader Examples.

(** C2. readTree's filter is meant to keep exactly the blob entries whose
    path is present (all of them without a sub-path, those beginning with
    the sub-path otherwise).  Without a sub-path the code keeps a blob
    entry that has no path: the presence test sits behind the [!path ||]
    short cut. *)
Theorem readTree_keeps_pathless_blob :
  readTree_files "" [pathless_blob; blob "a.txt"] = [pathless_blob; blob "a.txt"]
  /\ type pathless_blob = Some "blob"
  /\ path pathless_blob = None.
Proof. repeat split. Qed.

(** C10. Every entry the two filters select is meant to have a path, so
    that the later [path!] accesses are safe.  At a blob entry without a
    path, readTree's filter (no sub-path) selects it and the [content]
    accessor of the listing then reads the absent path; search's filter
    hands the absent path to the glob matcher and throws. *)
Theorem absent_path_reaches_non_null_access
        (Service : Type) (join : string -> string -> string)
        (minimatch : string -> string -> bool)
        (dir : string) (w : World Service) :
  In pathless_blob (readTree_files "" [pathless_blob])
  /\ path pathless_blob = None
  /\ readTree_listing (mkReadTree [pathless_blob] dir None)
     = [(None, pathless_blob)]
  /\ readTree_content Service join (mkReadTree [pathless_blob] dir None)
                      pathless_blob w
     = (Throw (TypeError "path is undefined"), w)
  /\ search_files minimatch "" [pathless_blob]
     = Throw (TypeError "path is undefined").
Proof. repeat split. now left. Qed.

(** C3, as stated, fails: on a listing with a dot-file readTree selects
    both blobs, search with the default pattern only one. *)
Lemma search_default_misses_dotfile :
  readTree_files "" dot_tree = [blob ".gitignore"; blob "README.md"]
  /\ forall minimatch_pattern,
       search_files (Glob.minimatch minimatch_pattern) "" dot_tree
       = Return [blob "README.md"].
Proof. split; [reflexivity | intros; reflexivity]. Qed.

(** Whatever the matcher, search without a sub-path keeps the entries of
    readTree's selection that the matcher accepts under the default
    pattern, provided every blob entry has a path. *)
Lemma search_default_generic
      (minimatch : string -> string -> bool) (tree : list TreeItem) :
  (forall item, In item tree -> is_blob item = true -> path item <> None) ->
  search_files minimatch "" tree
  = Return (List.filter (matched minimatch) (readTree_files "" tree)).
Proof.
  unfold search_files, readTree_files.
  induction tree as [|item tree IH]; intros Hpath; [reflexivity|].
  cbn [filter_throwing List.filter].
  rewrite IH by (intros i Hi; apply Hpath; now right).
  rewrite readTree_keep_all. unfold search_keep.
  destruct (is_blob item) eqn:Hb; [|reflexivity].
  specialize (Hpath item (or_introl eq_refl) Hb).
  destruct (Reader.path item) as [p|] eqn:Hp; [|contradiction].
  assert (Hs : matched minimatch item = minimatch p "**")
    by (unfold matched; now rewrite Hp).
  cbn [List.filter]. rewrite Hs. reflexivity.
Qed.

Lemma matched_shown (minimatch_pattern : string -> string -> bool) (item : TreeItem) :
  matched (Glob.minimatch minimatch_pattern) item = shown item.
Proof. unfold matched, shown. destruct (Reader.path item); reflexivity. Qed.

(** C3, amended. When every blob entry of the listing has a path, search
    on a URL without sub-path selects exactly the entries readTree selects
    for that URL whose path has no segment beginning with a period. *)
Theorem search_default_selection
        (minimatch_pattern : string -> string -> bool) (tree : list TreeItem) :
  (forall item, In item tree -> is_blob item = true -> path item <> None) ->
  search_files (Glob.minimatch minimatch_pattern) "" tree
  = Return (List.filter shown (readTree_files "" tree)).
Proof.
  intros Hpath. rewrite (search_default_generic _ tree Hpath).
  rewrite (List.filter_ext _ _ (matched_shown minimatch_pattern)). reflexivity.
Qed.

Lemma search_default_selection_witness :
  (forall item, In item dot_tree -> is_blob item = true -> path item <> None)
  /\ search_files (Glob.minimatch (fun _ _ => false)) "" dot_tree
     = Return (List.filter shown (readTree_files "" dot_tree)).
Proof.
  assert (H : forall item, In item dot_tree -> is_blob item = true -> path item <> None).
  { intros item [<-|[<-|[]]] _; discriminate. }
  split; [exact H | exact (search_default_selection (fun _ _ => false) dot_tree H)].
Defined.

End FilterClaims.

(** ** The factory and the router *)

Section BackendClaims.
Import Backend.
Variable getCredentials : string -> completion (option string).
Variable byUrl : string -> completion (option GithubIntegration).
Variable error_toString : JsError -> string.
Variable octokit_request : UpstreamRequest -> completion UpstreamResponse.
Variable JSON_stringify : Json -> string.

Local Abbreviation getOctokit := (Backend.getOctokit getCredentials byUrl error_toString).
Local Abbreviation handler :=
  (Backend.handler getCredentials byUrl error_toString octokit_request JSON_stringify).

(** The factory's outcome when both lookups succeed. *)
Lemma getOctokit_ok (url : string) (token : option string)
      (integration : option GithubIntegration) (w : World) :
  getCredentials url = Return token ->
  byUrl url = Return integration ->
  getOctokit url w =
  (let client := mkClient token (integration ≫= (apiBaseUrl ∘ config)) 3
                   ["400"; "401"; "403"; "404"; "422"; "429"; "501"] in
   (Return (Some client),
    mkWorld (log w) (credentialLookups w ++ [url]) (clients w ++ [client])
            (upstream w) (res w))).
Proof.
  intros Hc Hi. unfold Backend.getOctokit, try_catch, bind, lift, record_lookup,
    record_client, modify, ret. cbn. rewrite Hc, Hi. reflexivity.
Qed.

(** C9. When token resolution throws, or integration resolution throws
    after it, getOctokit logs the error and returns [undefined]; it does not
    throw, and no client is constructed. *)
Theorem getOctokit_absent_on_failure (url : string) (e : JsError) (w : World) :
  getCredentials url = Throw e \/
  (exists token, getCredentials url = Return token /\ byUrl url = Throw e) ->
  getOctokit url w =
  (Return None,
   mkWorld (log w ++ [LogError ("Error creating Octokit for url " +:+ url +:+ ": "
                                +:+ error_toString e)])
           (credentialLookups w ++ [url]) (clients w) (upstream w) (res w)).
Proof.
  intros [Hc | (token & Hc & Hi)];
    unfold Backend.getOctokit, try_catch, bind, lift, record_lookup, logger,
      modify, ret; cbn; rewrite Hc; [|rewrite Hi]; reflexivity.
Qed.

(** getOctokit never throws, whatever the collaborators do. *)
Lemma getOctokit_never_throws (url : string) (w : World) :
  is_throw (fst (getOctokit url w)) = false.
Proof.
  unfold Backend.getOctokit, try_catch, bind, lift, record_lookup, record_client,
    logger, modify, ret; cbn.
  destruct (getCredentials url); [|reflexivity].
  destruct (byUrl url); reflexivity.
Qed.

(** C1. A request without the github-host header makes the handler throw
    an InputError, and leaves the world as it was: no credentials lookup,
    no client construction, no upstream request, nothing logged or
    written. *)
Theorem handler_missing_host_header (req : Request) (w : World) :
  req_headers req !! "github-host" = None ->
  handler req w =
  (Throw (InputError ("Missing " +:+ dquote +:+ "github-host" +:+ dquote +:+ " header")),
   w).
Proof. intros H. unfold Backend.handler. rewrite H. reflexivity. Qed.

(** What the header filter leaves under each name. *)
Lemma filteredHeaders_lookup (h : gmap string HeaderValue) (k : string) :
  filteredHeaders h !! k =
  if decide (k = "content-type") then Some (HStr "application/json")
  else if decide (k = "transfer-encoding" \/ k = "content-encoding") then None
  else h !! k.
Proof.
  unfold filteredHeaders.
  destruct (decide (k = "content-type")) as [->|Hct].
  - apply lookup_insert_eq.
  - rewrite lookup_insert_ne by congruence.
    destruct (decide (k = "transfer-encoding" \/ k = "content-encoding"))
      as [[-> | ->] | Hn].
    + rewrite lookup_delete_ne by discriminate. apply lookup_delete_eq.
    + apply lookup_delete_eq.
    + rewrite !lookup_delete_ne by (intros <-; tauto). reflexivity.
Qed.

(** C6. With the header present and the upstream call succeeding, the
    handler sends exactly one upstream request, whose URL is the inbound
    path without its /api/github prefix and whose method and body are the
    inbound ones; it writes the upstream status, the filtered headers and
    the JSON text of the upstream body.  The filtered headers are the
    upstream ones without transfer-encoding and content-encoding and with
    content-type set to application/json. *)
Theorem handler_relays_success (req : Request) (w : World) (url rest : string)
        (token : option string) (integration : option GithubIntegration)
        (response : UpstreamResponse) :
  req_headers req !! "github-host" = Some url ->
  url <> "" ->
  originalUrl req = "/api/github" +:+ rest ->
  getCredentials url = Return token ->
  byUrl url = Return integration ->
  let client := mkClient token (integration ≫= (apiBaseUrl ∘ config)) 3
                  ["400"; "401"; "403"; "404"; "422"; "429"; "501"] in
  let sent := mkUpstream client (method req) rest (body req) in
  octokit_request sent = Return response ->
  handler req w =
  (Return tt,
   mkWorld (log w) (credentialLookups w ++ [url]) (clients w ++ [client])
           (upstream w ++ [sent])
           (mkRes (Some (status response)) (filteredHeaders (headers response))
                  (Some (JSON_stringify (data response)))))
  /\ forall k,
       filteredHeaders (headers response) !! k =
       if decide (k = "content-type") then Some (HStr "application/json")
       else if decide (k = "transfer-encoding" \/ k = "content-encoding") then None
       else headers response !! k.
Proof.
  intros Hh Hurl Hpath Hc Hi client sent Hup.
  split; [|intros k; apply filteredHeaders_lookup].
  unfold Backend.handler. rewrite Hh.
  destruct (JS.falsy url) eqn:F; [apply falsy_empty in F; contradiction|].
  unfold try_catch, bind at 1.
  rewrite (getOctokit_ok url token integration w Hc Hi). cbn zeta.
  rewrite Hpath, (replace_head "/api/github" rest "").
  change ("" +:+ rest) with rest. fold client. fold sent.
  unfold bind, record_upstream, set_res, lift, modify. cbn.
  fold sent. rewrite Hup. reflexivity.
Qed.

End BackendClaims.

Lemma getOctokit_absent_on_failure_witness :
  Backend.getOctokit Examples.token_for Examples.integration_for Examples.show_error
                     "ghe.example.com" Examples.empty_world
  = (Return None,
     Backend.mkWorld
       [Backend.LogError
          "Error creating Octokit for url ghe.example.com: Error: No credentials for ghe.example.com"]
       ["ghe.example.com"] [] [] Backend.fresh_res).
Proof.
  apply (getOctokit_absent_on_failure Examples.token_for Examples.integration_for
           Examples.show_error "ghe.example.com"
           (JS.Error "No credentials for ghe.example.com") Examples.empty_world).
  left. reflexivity.
Defined.

Lemma handler_missing_host_header_witness :
  Backend.handler Examples.token_for Examples.integration_for Examples.show_error
                  Examples.upstream_ok Examples.stringify_stub
                  Examples.no_host_header Examples.empty_world
  = (Throw (InputError ("Missing " +:+ dquote +:+ "github-host" +:+ dquote +:+ " header")),
     Examples.empty_world).
Proof.
  apply (handler_missing_host_header Examples.token_for Examples.integration_for
           Examples.show_error Examples.upstream_ok Examples.stringify_stub
           Examples.no_host_header Examples.empty_world).
  vm_compute. reflexivity.
Defined.

Lemma handler_relays_success_witness :
  Backend.handler Examples.token_for Examples.integration_for Examples.show_error
                  Examples.upstream_ok Examples.stringify_stub
                  Examples.get_contents Examples.empty_world
  = (Return tt,
     Backend.mkWorld [] ["github.com"] [Examples.github_client]
       [Backend.mkUpstream Examples.github_client "GET" "/repos/o/r/contents/x" JNull]
       (Backend.mkRes (Some 200)
          (Backend.filteredHeaders (Backend.headers Examples.upstream_response))
          (Some "{...}")))
  /\ forall k,
       Backend.filteredHeaders (Backend.headers Examples.upstream_response) !! k =
       if decide (k = "content-type") then Some (HStr "application/json")
       else if decide (k = "transfer-encoding" \/ k = "content-encoding") then None
       else Backend.headers Examples.upstream_response !! k.
Proof.
  apply (handler_relays_success Examples.token_for Examples.integration_for
           Examples.show_error Examples.upstream_ok Examples.stringify_stub
           Examples.get_contents Examples.empty_world
           "github.com" "/repos/o/r/contents/x" (Some "ghs_token")
           (Some Examples.github_integration) Examples.upstream_response).
  - reflexivity.
  - discriminate.
  - reflexivity.
  - reflexivity.
  - reflexivity.
  - reflexivity.
Defined.

(** ** The client cache *)

Section CacheClaims.
Import GithubClient.
Variable getBaseUrl : string -> nat -> completion string.
Variable fetch : option FetchFn.

Local Abbreviation forHost := (GithubClient.forHost getBaseUrl fetch).
Local Abbreviation after := (GithubClient.after getBaseUrl fetch).
Local Abbreviation reachable := (GithubClient.reachable getBaseUrl fetch).

(** A call either finds the host in the cache, or makes one discovery
    lookup and, if that succeeds, stores a fresh client. *)
Lemma forHost_cases (host : string) (st : State) :
  (exists c, octokitCache st !! host = Some c /\ forHost host st = (Return c, st))
  \/ (octokitCache st !! host = None /\
      ((exists e, getBaseUrl "github" (discoveries st) = Throw e /\
                  forHost host st
                  = (Throw e, mkState (octokitCache st) (S (discoveries st))))
       \/ (exists base, getBaseUrl "github" (discoveries st) = Return base /\
             forHost host st
             = (Return (mkOctokit base fetch {[ "github-host" := host ]} false false),
                mkState (<[host := mkOctokit base fetch {[ "github-host" := host ]}
                                             false false]> (octokitCache st))
                        (S (discoveries st)))))).
Proof.
  unfold GithubClient.forHost.
  destruct (octokitCache st !! host) as [c|] eqn:Hc; [left; eauto|right].
  split; [reflexivity|].
  destruct (getBaseUrl "github" (discoveries st)) as [base|e]; [right|left]; eauto.
Qed.

(** Entries stay: the cache is only ever extended at hosts it lacks. *)
Lemma cache_step (host h : string) (c : Octokit) (st : State) :
  octokitCache st !! h = Some c ->
  octokitCache (snd (forHost host st)) !! h = Some c.
Proof.
  intros Hh.
  destruct (forHost_cases host st) as [(c' & _ & ->) | (Hn & [(e & _ & ->) | (b & _ & ->)])];
    cbn; try exact Hh.
  rewrite lookup_insert_ne; [exact Hh | congruence].
Qed.

Lemma cache_after (st1 st2 : State) (h : string) (c : Octokit) :
  after st1 st2 -> octokitCache st1 !! h = Some c -> octokitCache st2 !! h = Some c.
Proof.
  induction 1 as [|st host _ IH]; intros Hh; [exact Hh|].
  apply cache_step, IH, Hh.
Qed.

(** Every cached client carries the tag of the host it is stored under. *)
Lemma cache_tagged (st : State) :
  reachable st -> forall h c, octokitCache st !! h = Some c -> tagged h c.
Proof.
  unfold GithubClient.reachable.
  induction 1 as [|st host _ IH]; intros h c Hh.
  - cbn in Hh. rewrite lookup_empty in Hh. discriminate.
  - destruct (forHost_cases host st)
      as [(c' & _ & E) | (Hn & [(e & _ & E) | (b & _ & E)])];
      rewrite E in Hh; cbn in Hh; try (apply IH; exact Hh).
    destruct (decide (host = h)) as [->|Hne].
    + rewrite lookup_insert_eq in Hh. injection Hh as <-.
      unfold tagged; cbn. split; [apply lookup_singleton_eq | split; reflexivity].
    + rewrite lookup_insert_ne in Hh by exact Hne. apply IH; exact Hh.
Qed.

(** C7. When [forHost host] returns a client on an instance, the client
    carries the header github-host = host and has retry and throttling
    disabled; on a miss it is the freshly built client and one discovery
    lookup was made; and every later [forHost host] on that instance
    returns the same client and leaves the instance, its discovery count
    included, unchanged. *)
Theorem forHost_memoized (host : string) (st st1 : State) (c : Octokit) :
  reachable st ->
  forHost host st = (Return c, st1) ->
  tagged host c
  /\ (octokitCache st !! host = None ->
      discoveries st1 = S (discoveries st)
      /\ exists base, getBaseUrl "github" (discoveries st) = Return base
                      /\ c = mkOctokit base fetch {[ "github-host" := host ]} false false)
  /\ forall st2, after st1 st2 -> forHost host st2 = (Return c, st2).
Proof.
  intros Hr Hcall.
  assert (Hst1 : octokitCache st1 !! host = Some c).
  { destruct (forHost_cases host st)
      as [(c' & Hc & E) | (Hn & [(e & _ & E) | (b & _ & E)])];
      rewrite E in Hcall.
    - injection Hcall as H1 H2. subst. exact Hc.
    - discriminate.
    - injection Hcall as H1 H2. subst. cbn. apply lookup_insert_eq. }
  assert (Hr1 : reachable st1).
  { replace st1 with (snd (forHost host st)) by now rewrite Hcall.
    now apply after_call. }
  split; [exact (cache_tagged st1 Hr1 host c Hst1)|]. split.
  - intros Hmiss.
    destruct (forHost_cases host st)
      as [(c' & Hc & E) | (Hn & [(e & _ & E) | (b & Hb & E)])];
      rewrite E in Hcall; [congruence | discriminate |].
    injection Hcall as H1 H2. subst. cbn. eauto.
  - intros st2 Hafter.
    pose proof (cache_after st1 st2 host c Hafter Hst1) as H2.
    unfold GithubClient.forHost. rewrite H2. reflexivity.
Qed.

End CacheClaims.

Lemma forHost_memoized_witness :
  tagged "github.com"
         (GithubClient.mkOctokit "http://localhost:7007/api/github" None
                                 {[ "github-host" := "github.com" ]} false false)
  /\ forall st2,
       GithubClient.after Examples.discovery None
         (snd (GithubClient.forHost Examples.discovery None "github.com" GithubClient.new))
         st2 ->
       GithubClient.forHost Examples.discovery None "github.com" st2
       = (Return (GithubClient.mkOctokit "http://localhost:7007/api/github" None
                                         {[ "github-host" := "github.com" ]} false false),
          st2).
Proof.
  destruct (forHost_memoized Examples.discovery None "github.com" GithubClient.new
              (snd (GithubClient.forHost Examples.discovery None "github.com"
                                         GithubClient.new))
              (GithubClient.mkOctokit "http://localhost:7007/api/github" None
                                      {[ "github-host" := "github.com" ]} false false))
    as (Ht & _ & Hlater).
  - apply GithubClient.after_refl.
  - reflexivity.
  - split; [exact Ht | exact Hlater].
Defined.

(** ** The read operations *)

Section ReaderClaims.
Import Reader.
Variable Service : Type.
Variable forHost : string -> Async Service GithubClient.Octokit.
Variable parseGitUrl : string -> completion GitUrl.
Variable repos_getContent :
  GithubClient.Octokit -> GetContentParams -> completion ContentResponse.
Variable git_getTree : GithubClient.Octokit -> GetTreeParams -> completion TreeResponse.
Variable base64_decode : string -> string.
Variable tmpdir : string.
Variable join : string -> string -> string.
Variable fs_mkdtemp : string -> nat -> completion string.
Variable fs_mkdir : string -> completion unit.
Variable fs_writeFile : string -> string -> completion unit.

Local Abbreviation World := (Reader.World Service).
Local Abbreviation readUrl :=
  (Reader.readUrl Service forHost parseGitUrl repos_getContent base64_decode).
Local Abbreviation fetch_blob :=
  (Reader.fetch_blob Service repos_getContent base64_decode join fs_mkdir fs_writeFile).
Local Abbreviation readTree :=
  (Reader.readTree Service forHost parseGitUrl repos_getContent git_getTree
                   base64_decode tmpdir join fs_mkdtemp fs_mkdir fs_writeFile).

(** C4. When readUrl is called with an etag and the client rejects the
    content request with status 304, readUrl throws NotModifiedError: not
    the upstream error, and no buffer. *)
Theorem readUrl_not_modified (url etag : string) (parsed : ParsedUrl)
        (client : GithubClient.Octokit) (s1 : Service) (e : JsError) (w : World) :
  parseGithubUrl parseGitUrl url = Return parsed ->
  forHost (url_host parsed) (service Service w) = (Return client, s1) ->
  etag <> "" ->
  let params := mkGetContent (url_owner parsed) (url_repo parsed)
                             (Some (url_path parsed)) (url_ref parsed)
                             {[ "If-None-Match" := etag ]} in
  repos_getContent client params = Throw e ->
  JS.status e = Some 304 ->
  readUrl url (Some etag) w =
  (Throw NotModifiedError,
   mkWorld Service s1 (calls Service w ++ [GetContent client params])
           (dirs Service w) (written Service w)).
Proof.
  intros Hp Hf He params Hc Hs.
  unfold Reader.readUrl, bind at 1, lift. rewrite Hp.
  unfold bind at 1, github_forHost. rewrite Hf.
  unfold try_catch, bind, getContent, conditional_headers. cbn.
  destruct (JS.falsy etag) eqn:F; [apply falsy_empty in F; contradiction|].
  fold params. rewrite Hc, Hs. reflexivity.
Qed.

(** [Promise.all] rejects as soon as one of its tasks is bound to reject. *)
Lemma Promise_all_rejects {A} (tasks : list (Async World A)) (task : Async World A) :
  In task tasks ->
  (forall w, is_throw (fst (task w)) = true) ->
  forall w, is_throw (fst (Promise_all Service tasks w)) = true.
Proof.
  intros Hin Hthrow. induction tasks as [|t rest IH]; [destruct Hin|].
  intros w. cbn [Promise_all].
  destruct Hin as [-> | Hin].
  - specialize (Hthrow w). destruct (task w) as [[a|e] w1]; [discriminate|reflexivity].
  - destruct (t w) as [[a|e] w1]; [|reflexivity].
    specialize (IH Hin w1).
    destruct (Promise_all Service rest w1) as [[l|e] w2]; [discriminate|reflexivity].
Qed.

(** The task for one entry rejects when the fetch is rejected or the
    content is not base64. *)
Lemma fetch_blob_rejects (client : GithubClient.Octokit) (parsed : ParsedUrl)
      (tempDir : string) (file : TreeItem) :
  (exists e,
      repos_getContent client
        (mkGetContent (url_owner parsed) (url_repo parsed) (path file)
                      (url_ref parsed) ∅) = Throw e)
  \/ (exists hdrs encoding content,
         repos_getContent client
           (mkGetContent (url_owner parsed) (url_repo parsed) (path file)
                         (url_ref parsed) ∅)
         = Return (mkContent hdrs (FileData encoding content))
         /\ encoding <> "base64") ->
  forall w, is_throw (fst (fetch_blob client parsed tempDir file w)) = true.
Proof.
  intros H w. unfold Reader.fetch_blob, bind at 1, getContent.
  destruct H as [(e & ->) | (hdrs & enc & content & -> & Henc)]; [reflexivity|].
  cbn. apply String.eqb_neq in Henc. rewrite Henc. reflexivity.
Qed.

(** C5. If, for some selected blob, the content fetch is rejected or the
    fetched content is not base64, readTree as a whole throws: it does not
    return a result for the blobs that did succeed. *)
Theorem readTree_fails_when_a_blob_fails (url : string) (parsed : ParsedUrl)
        (client : GithubClient.Octokit) (s1 : Service) (response : TreeResponse)
        (file : TreeItem) (w : World) :
  parseGithubUrl parseGitUrl url = Return parsed ->
  forHost (url_host parsed) (service Service w) = (Return client, s1) ->
  git_getTree client (mkGetTree (url_owner parsed) (url_repo parsed)
                                (JS.or_else (url_ref parsed) "main") "true")
  = Return response ->
  In file (readTree_files (url_path parsed) (tree response)) ->
  (exists e,
      repos_getContent client
        (mkGetContent (url_owner parsed) (url_repo parsed) (path file)
                      (url_ref parsed) ∅) = Throw e)
  \/ (exists hdrs encoding content,
         repos_getContent client
           (mkGetContent (url_owner parsed) (url_repo parsed) (path file)
                         (url_ref parsed) ∅)
         = Return (mkContent hdrs (FileData encoding content))
         /\ encoding <> "base64") ->
  exists e w', readTree url w = (Throw e, w').
Proof.
  intros Hp Hf Ht Hin Hfail.
  unfold Reader.readTree, bind at 1, lift. rewrite Hp.
  unfold bind at 1, github_forHost. rewrite Hf.
  unfold bind at 1, getTree. cbn [service calls dirs written]. rewrite Ht.
  unfold bind at 1.
  match goal with |- context [mkdtemp ?S ?f ?p ?w0] =>
    destruct (mkdtemp S f p w0) as [[tempDir|e] w1] end; [|eauto].
  unfold bind at 1.
  pose proof (Promise_all_rejects
                (List.map (fetch_blob client parsed tempDir)
                          (readTree_files (url_path parsed) (tree response)))
                (fetch_blob client parsed tempDir file)
                (in_map _ _ _ Hin)
                (fetch_blob_rejects client parsed tempDir file Hfail) w1) as Hall.
  destruct (Promise_all Service _ w1) as [[l|e] w2]; [discriminate|eauto].
Qed.

End ReaderClaims.

Lemma readUrl_not_modified_witness :
  Reader.readUrl GithubClient.State (GithubClient.forHost Examples.discovery None)
                 Examples.parse_file_url Examples.content_of Examples.decode_stub
                 "https://github.com/o/r/blob/main/a.txt" (Some "W/a")
                 Examples.reader_world
  = (Throw NotModifiedError,
     Reader.mkWorld GithubClient.State
       (GithubClient.mkState {[ "github.com" := Examples.host_client ]} 1)
       [Reader.GetContent Examples.host_client
          (Reader.mkGetContent "o" "r" (Some "a.txt") "main"
                               {[ "If-None-Match" := "W/a" ]})]
       [] ∅).
Proof.
  apply (readUrl_not_modified GithubClient.State
           (GithubClient.forHost Examples.discovery None)
           Examples.parse_file_url Examples.content_of Examples.decode_stub
           "https://github.com/o/r/blob/main/a.txt" "W/a"
           (Reader.mkParsed "github.com" "o" "r" "a.txt" "main")
           Examples.host_client
           (GithubClient.mkState {[ "github.com" := Examples.host_client ]} 1)
           (mkError "HttpError" "Not modified" (Some 304))
           Examples.reader_world).
  - reflexivity.
  - reflexivity.
  - discriminate.
  - reflexivity.
  - reflexivity.
Defined.

Lemma readTree_fails_when_a_blob_fails_witness :
  exists e w',
    Reader.readTree GithubClient.State (GithubClient.forHost Examples.discovery None)
                    Examples.parse_url Examples.content_of Examples.tree_of
                    Examples.decode_stub "/tmp" Examples.join_paths
                    Examples.mkdtemp_ok Examples.mkdir_ok Examples.writeFile_ok
                    "https://github.com/o/r" Examples.reader_world
    = (Throw e, w').
Proof.
  apply (readTree_fails_when_a_blob_fails GithubClient.State
           (GithubClient.forHost Examples.discovery None)
           Examples.parse_url Examples.content_of Examples.tree_of
           Examples.decode_stub "/tmp" Examples.join_paths
           Examples.mkdtemp_ok Examples.mkdir_ok Examples.writeFile_ok
           "https://github.com/o/r"
           (Reader.mkParsed "github.com" "o" "r" "" "main")
           Examples.host_client
           (GithubClient.mkState {[ "github.com" := Examples.host_client ]} 1)
           (Reader.mkTree {[ "etag" := "W/tree" ]}
                          [Examples.blob "a.txt"; Examples.blob "b.txt"])
           (Examples.blob "b.txt") Examples.reader_world).
  - reflexivity.
  - reflexivity.
  - reflexivity.
  - right. left. reflexivity.
  - left. exists (mkError "HttpError" "Server Error" (Some 500)). reflexivity.
Defined.

(** ** Rate-limit metrics *)

Section MetricsClaims.
Import Metrics.


Lemma observe_expected (now_ms : Z) (params : RateLimitMetricsParams)
      (creds : Credentials) (res_headers : gmap string HeaderValue) (g : Gauge)
      (emitted : list Observation) :
  observe g (principal_label creds) (externalApi params)
          (getHeader res_headers (header_of params g)) (gauge_value now_ms g) emitted
  = (Return tt, (emitted ++ expected now_ms params creds res_headers g)%list).
Proof.
  unfold observe, expected.
  destruct (getHeader res_headers (header_of params g)) as [[s|n|l]|];
    cbn; rewrite ?app_nil_r; reflexivity.
Qed.

Lemma on_finish_expected (now_ms : Z) (params : RateLimitMetricsParams)
      (creds : Credentials) (res_headers : gmap string HeaderValue)
      (emitted : list Observation) :
  on_finish (Return creds) now_ms params res_headers emitted
  = (Return tt,
     (emitted ++ expected now_ms params creds res_headers rateLimitMetric
              ++ expected now_ms params creds res_headers rateLimitRemainingMetric
              ++ expected now_ms params creds res_headers rateLimitResetMetric)%list).
Proof.
  unfold on_finish, bind at 1, lift.
  fold (principal_label creds).
  change (default "X-RateLimit-Limit" (limitHeader params))
    with (header_of params rateLimitMetric).
  change (default "X-RateLimit-Overall-Remaining" (remainingHeader params))
    with (header_of params rateLimitRemainingMetric).
  change (default "X-External-Api-RateLimit-Reset" (resetHeader params))
    with (header_of params rateLimitResetMetric).
  change parseInt with (gauge_value now_ms rateLimitMetric) at 1.
  change parseInt with (gauge_value now_ms rateLimitRemainingMetric) at 1.
  change (fun s : string => (fun n : Z => n - now_ms / 1000) <$> parseInt s)
    with (gauge_value now_ms rateLimitResetMetric).
  unfold bind.
  rewrite (observe_expected now_ms params creds res_headers rateLimitMetric).
  rewrite (observe_expected now_ms params creds res_headers rateLimitRemainingMetric).
  rewrite (observe_expected now_ms params creds res_headers rateLimitResetMetric).
  rewrite <- !app_assoc. reflexivity.
Qed.

Lemma in_expected (now_ms : Z) (params : RateLimitMetricsParams)
      (creds : Credentials) (res_headers : gmap string HeaderValue) (g : Gauge)
      (o : Observation) :
  In o (expected now_ms params creds res_headers g) <->
  gauge o = g /\
  exists s, getHeader res_headers (header_of params g) = Some (HStr s)
            /\ o = mkObs g (principal_label creds) (externalApi params)
                         (gauge_value now_ms g s).
Proof.
  unfold expected.
  destruct (getHeader res_headers (header_of params g)) as [[s|n|l]|]; cbn.
  - split.
    + intros [<- | []]. split; [reflexivity | eauto].
    + intros (_ & s' & [= <-] & ->). now left.
  - split; [intros [] | intros (_ & s & [=] & _)].
  - split; [intros [] | intros (_ & s & [=] & _)].
  - split; [intros [] | intros (_ & s & [=] & _)].
Qed.


End MetricsClaims.

(** ** Sample runs *)

(** A host without credentials: the factory yields no client, the handler
    answers 500 with an error envelope and sends nothing upstream. *)
Example handler_unknown_host :
  let out := Backend.handler Examples.token_for Examples.integration_for
               Examples.show_error Examples.upstream_ok Examples.stringify_stub
               Examples.unknown_host Examples.empty_world in
  fst out = Return tt
  /\ Backend.upstream (snd out) = []
  /\ Backend.clients (snd out) = []
  /\ Backend.statusCode (Backend.res (snd out)) = Some 500.
Proof. repeat split. Qed.

(** readTree returns when every fetch succeeds: one request for the tree,
    one per blob, and the blob written under the temporary directory. *)
Example readTree_single_blob :
  let out := Reader.readTree GithubClient.State
               (GithubClient.forHost Examples.discovery None)
               Examples.parse_url Examples.content_of Examples.tree_of_a
               Examples.decode_stub "/tmp" Examples.join_paths
               Examples.mkdtemp_ok Examples.mkdir_ok Examples.writeFile_ok
               "https://github.com/o/r" Examples.reader_world in
  fst out = Return (Reader.mkReadTree [Examples.blob "a.txt"]
                                      "/tmp/url-reader-XXXXXX" (Some "W/tree"))
  /\ Reader.written GithubClient.State (snd out) !! "/tmp/url-reader-XXXXXX/a.txt"
     = Some "aGk="
  /\ length (Reader.calls GithubClient.State (snd out)) = 2%nat.
Proof. repeat split. Qed.

(** search on the listing with a dot-file returns the URL of README.md
    only, and fetches no content. *)
Example search_dot_tree :
  let out := Reader.search GithubClient.State
               (GithubClient.forHost Examples.discovery None)
               Examples.parse_url Examples.tree_of_dot
               (Glob.minimatch (fun _ _ => false))
               "https://github.com/o/r" Examples.reader_world in
  fst out = Return (Reader.mkSearch
                      [("https://github.com/o/r/blob/main/README.md",
                        Examples.blob "README.md")]
                      (Some "W/tree"))
  /\ length (Reader.calls GithubClient.State (snd out)) = 1%nat.
Proof. repeat split. Qed.

(** * Further properties *)

(** ** Selection of tree entries *)

Section Selection.
Import Reader.

Lemma prefix_trans (a b c : string) :
  String.prefix a b = true -> String.prefix b c = true -> String.prefix a c = true.
Proof.
  revert b c. induction a as [|x a IH]; intros b c Hab Hbc; [now destruct c|].
  destruct b as [|y b]; [discriminate|]. destruct c as [|z c]; [discriminate|].
  simpl in *.
  destruct (ascii_dec x y) as [->|]; [|discriminate].
  destruct (ascii_dec y z) as [->|]; [|discriminate].
  destruct (ascii_dec z z) as [_|n]; [eauto | now destruct n].
Qed.

Lemma prefix_empty (a : string) : String.prefix a "" = true -> a = "".
Proof. destruct a; simpl; congruence. Qed.

(** X1. With a non-empty sub-path, readTree selects exactly the entries of
    the listing that are blobs and have a path beginning with the
    sub-path. *)
Theorem readTree_files_sub (sub : string) (tree : list TreeItem) (item : TreeItem) :
  sub <> "" ->
  In item (readTree_files sub tree) <->
  In item tree /\ type item = Some "blob"
  /\ exists p, path item = Some p /\ JS.startsWith p sub = true.
Proof.
  intros Hsub. rewrite in_readTree_files, (readTree_keep_sub sub item Hsub). tauto.
Qed.

Lemma readTree_files_sub_witness :
  In (Examples.blob "docs/a.md")
     (readTree_files "docs/" [Examples.blob "README.md"; Examples.blob "docs/a.md"]).
Proof.
  apply (readTree_files_sub "docs/"
           [Examples.blob "README.md"; Examples.blob "docs/a.md"]
           (Examples.blob "docs/a.md")).
  - discriminate.
  - split; [right; left; reflexivity|]. split; [reflexivity|].
    exists "docs/a.md". split; reflexivity.
Defined.

Lemma readTree_keep_narrow (sub1 sub2 : string) (item : TreeItem) :
  JS.startsWith sub2 sub1 = true ->
  readTree_keep sub2 item = true -> readTree_keep sub1 item = true.
Proof.
  unfold readTree_keep, path_startsWith, JS.startsWith. intros H12.
  rewrite !andb_true_iff, !orb_true_iff. intros [Hb [F | Hp]]; split; auto.
  - left. apply falsy_empty in F. subst sub2.
    apply prefix_empty in H12. now subst sub1.
  - right. destruct (Reader.path item) as [p|]; [|discriminate].
    exact (prefix_trans sub1 sub2 p H12 Hp).
Qed.

(** X2. Narrowing composes: selecting under a sub-path from what was
    selected under a prefix of that sub-path gives the selection under the
    sub-path from the whole listing. *)
Theorem readTree_files_narrow (sub1 sub2 : string) (tree : list TreeItem) :
  JS.startsWith sub2 sub1 = true ->
  readTree_files sub2 (readTree_files sub1 tree) = readTree_files sub2 tree.
Proof.
  intros H12. unfold readTree_files.
  induction tree as [|item tree IH]; [reflexivity|]. cbn [List.filter].
  destruct (readTree_keep sub1 item) eqn:K1.
  - cbn [List.filter]. rewrite IH. reflexivity.
  - destruct (readTree_keep sub2 item) eqn:K2; [|exact IH].
    rewrite (readTree_keep_narrow sub1 sub2 item H12 K2) in K1. discriminate.
Qed.

Lemma readTree_files_narrow_witness :
  readTree_files "docs/api/"
    (readTree_files "docs/" [Examples.blob "README.md"; Examples.blob "docs/a.md";
                             Examples.blob "docs/api/b.md"])
  = readTree_files "docs/api/" [Examples.blob "README.md"; Examples.blob "docs/a.md";
                                Examples.blob "docs/api/b.md"].
Proof.
  apply (readTree_files_narrow "docs/" "docs/api/"). reflexivity.
Defined.

Section AnyMatcher.
Variable minimatch : string -> string -> bool.

(** The entries search keeps when nothing throws. *)
Lemma search_files_filter (sub : string) (tree : list TreeItem) (kept : list TreeItem) :
  search_files minimatch sub tree = Return kept ->
  kept = List.filter
           (fun item => is_blob item
                        && match Reader.path item with
                           | Some p => minimatch p (JS.or_else sub "**")
                           | None => false
                           end) tree.
Proof.
  unfold search_files. revert kept.
  induction tree as [|item tree IH]; intros kept; cbn [filter_throwing List.filter].
  - now intros [= <-].
  - unfold search_keep at 1.
    destruct (is_blob item); cbn [andb].
    + destruct (Reader.path item) as [p|]; cbn [non_null]; [|discriminate].
      destruct (filter_throwing (search_keep minimatch sub) tree) as [l|e];
        [|discriminate].
      intros [= <-]. now rewrite (IH l eq_refl).
    + destruct (filter_throwing (search_keep minimatch sub) tree) as [l|e];
        [|discriminate].
      intros [= <-]. exact (IH l eq_refl).
Qed.

(** X3. search's filter throws exactly when the listing holds a blob entry
    without a path, whatever the sub-path and the matcher. *)
Theorem search_files_throws_iff (sub : string) (tree : list TreeItem) :
  is_throw (search_files minimatch sub tree) = existsb pathless tree.
Proof.
  unfold search_files, pathless.
  induction tree as [|item tree IH]; [reflexivity|].
  cbn [filter_throwing existsb]. unfold search_keep at 1.
  destruct (is_blob item); cbn [andb orb].
  - destruct (Reader.path item) as [p|]; cbn [non_null orb]; [|reflexivity].
    rewrite <- IH.
    now destruct (filter_throwing (search_keep minimatch sub) tree).
  - rewrite <- IH.
    now destruct (filter_throwing (search_keep minimatch sub) tree).
Qed.

(** X4. When search's filter returns, it has kept exactly the entries of
    the listing that are blobs and whose path the matcher accepts under the
    sub-path as pattern (or under the default pattern without one); every
    kept entry has a path. *)
Theorem search_files_spec (sub : string) (tree kept : list TreeItem) (item : TreeItem) :
  search_files minimatch sub tree = Return kept ->
  In item kept <->
  In item tree /\ type item = Some "blob"
  /\ exists p, path item = Some p /\ minimatch p (JS.or_else sub "**") = true.
Proof.
  intros H. rewrite (search_files_filter sub tree kept H), filter_In.
  rewrite andb_true_iff, is_blob_spec.
  destruct (Reader.path item) as [p|].
  - split; intros (Hin & Hb & Hm); repeat split; eauto.
    destruct Hm as (q & [= <-] & Hm). exact Hm.
  - split; intros (Hin & Hb & Hm); [discriminate|].
    destruct Hm as (q & [=] & _).
Qed.

End AnyMatcher.

Lemma search_files_spec_witness :
  In (Examples.blob "README.md") [Examples.blob "README.md"] <->
  In (Examples.blob "README.md") Examples.dot_tree
  /\ type (Examples.blob "README.md") = Some "blob"
  /\ exists p, path (Examples.blob "README.md") = Some p
               /\ Glob.minimatch (fun _ _ => false) p (JS.or_else "" "**") = true.
Proof.
  apply (search_files_spec (Glob.minimatch (fun _ _ => false)) ""
                           Examples.dot_tree [Examples.blob "README.md"]
                           (Examples.blob "README.md")).
  reflexivity.
Defined.

End Selection.

(** ** The read operations, continued *)

Section ReaderMore.
Import Reader.
Variable Service : Type.
Variable forHost : string -> Async Service GithubClient.Octokit.
Variable parseGitUrl : string -> completion GitUrl.
Variable repos_getContent :
  GithubClient.Octokit -> GetContentParams -> completion ContentResponse.
Variable git_getTree : GithubClient.Octokit -> GetTreeParams -> completion TreeResponse.
Variable base64_decode : string -> string.
Variable tmpdir : string.
Variable join : string -> string -> string.
Variable fs_mkdtemp : string -> nat -> completion string.
Variable fs_mkdir : string -> completion unit.
Variable fs_writeFile : string -> string -> completion unit.
Variable minimatch : string -> string -> bool.

Local Abbreviation World := (Reader.World Service).
Local Abbreviation parseGithubUrl := (Reader.parseGithubUrl parseGitUrl).
Local Abbreviation readUrl :=
  (Reader.readUrl Service forHost parseGitUrl repos_getContent base64_decode).
Local Abbreviation fetch_blob :=
  (Reader.fetch_blob Service repos_getContent base64_decode join fs_mkdir fs_writeFile).
Local Abbreviation readTree :=
  (Reader.readTree Service forHost parseGitUrl repos_getContent git_getTree
                   base64_decode tmpdir join fs_mkdtemp fs_mkdir fs_writeFile).
Local Abbreviation search :=
  (Reader.search Service forHost parseGitUrl git_getTree minimatch).
Local Abbreviation search_content :=
  (Reader.search_content Service repos_getContent base64_decode).


(** X6. A URL in which the parser finds no host makes all three read
    operations throw "Invalid Git URL" and leaves the world untouched: the
    service is not asked for a client and nothing is requested upstream. *)
Theorem invalid_url_reads_nothing (url : string) (g : GitUrl)
        (etag : option string) (w : World) :
  parseGitUrl url = Return g ->
  source g = "" ->
  readUrl url etag w = (Throw (Error ("Invalid Git URL: " +:+ url)), w)
  /\ readTree url w = (Throw (Error ("Invalid Git URL: " +:+ url)), w)
  /\ search url w = (Throw (Error ("Invalid Git URL: " +:+ url)), w).
Proof.
  intros Hp Hs.
  assert (E : parseGithubUrl url = Throw (Error ("Invalid Git URL: " +:+ url))).
  { unfold Reader.parseGithubUrl. rewrite Hp, Hs. reflexivity. }
  unfold Reader.readUrl, Reader.readTree, Reader.search, bind, lift.
  rewrite E. repeat split.
Qed.

(** X7. When the service cannot provide a client, each read operation
    throws the service's error before any upstream request is made. *)
Theorem no_client_reads_nothing (url : string) (parsed : ParsedUrl) (e : JsError)
        (s1 : Service) (etag : option string) (w : World) :
  parseGithubUrl url = Return parsed ->
  forHost (url_host parsed) (service Service w) = (Throw e, s1) ->
  let w1 := mkWorld Service s1 (calls Service w) (dirs Service w) (written Service w) in
  readUrl url etag w = (Throw e, w1)
  /\ readTree url w = (Throw e, w1)
  /\ search url w = (Throw e, w1).
Proof.
  intros Hp Hf w1.
  unfold Reader.readUrl, Reader.readTree, Reader.search, bind, lift, github_forHost.
  rewrite Hp, Hf. repeat split.
Qed.

(** X8. readUrl on a base64 file returns the decoded content, the
    response's etag and last-modified header, after exactly one content
    request that carries If-None-Match only when a non-empty etag was
    supplied. *)
Theorem readUrl_returns_file (url : string) (etag : option string)
        (parsed : ParsedUrl) (client : GithubClient.Octokit) (s1 : Service)
        (hdrs : gmap string string) (content : string) (w : World) :
  parseGithubUrl url = Return parsed ->
  forHost (url_host parsed) (service Service w) = (Return client, s1) ->
  let params := mkGetContent (url_owner parsed) (url_repo parsed)
                             (Some (url_path parsed)) (url_ref parsed)
                             (conditional_headers etag) in
  repos_getContent client params = Return (mkContent hdrs (FileData "base64" content)) ->
  readUrl url etag w =
  (Return (mkReadUrl (base64_decode content) (hdrs !! "etag") (last_modified hdrs)),
   mkWorld Service s1 (calls Service w ++ [GetContent client params])
           (dirs Service w) (written Service w))
  /\ (gc_headers params !! "If-None-Match" =
      match etag with
      | Some t => if JS.falsy t then None else Some t
      | None => None
      end).
Proof.
  intros Hp Hf params Hc. split.
  - unfold Reader.readUrl, bind at 1, lift. rewrite Hp.
    unfold bind at 1, github_forHost. rewrite Hf.
    unfold try_catch, bind, getContent. cbn. fold params. rewrite Hc. reflexivity.
  - subst params. cbn. unfold conditional_headers.
    destruct etag as [t|]; [|apply lookup_empty].
    destruct (JS.falsy t); [apply lookup_empty | apply lookup_singleton_eq].
Qed.

(** X9. readUrl passes on every client error whose status is not 304
    unchanged. *)
Theorem readUrl_rethrows (url : string) (etag : option string)
        (parsed : ParsedUrl) (client : GithubClient.Octokit) (s1 : Service)
        (e : JsError) (w : World) :
  parseGithubUrl url = Return parsed ->
  forHost (url_host parsed) (service Service w) = (Return client, s1) ->
  let params := mkGetContent (url_owner parsed) (url_repo parsed)
                             (Some (url_path parsed)) (url_ref parsed)
                             (conditional_headers etag) in
  repos_getContent client params = Throw e ->
  JS.status e <> Some 304 ->
  readUrl url etag w =
  (Throw e,
   mkWorld Service s1 (calls Service w ++ [GetContent client params])
           (dirs Service w) (written Service w)).
Proof.
  intros Hp Hf params Hc Hs.
  unfold Reader.readUrl, bind at 1, lift. rewrite Hp.
  unfold bind at 1, github_forHost. rewrite Hf.
  unfold try_catch, bind, getContent. cbn. fold params. rewrite Hc.
  destruct (JS.status e) as [n|]; [|reflexivity].
  destruct (Z.eq_dec n 304) as [->|Hn]; [contradiction|].
  destruct n as [|n|n]; try reflexivity.
  repeat (destruct n as [n|n|]; try reflexivity). contradiction.
Qed.

(** X10. readUrl refuses what is not a base64 file: a response without
    content is "Expected file but got a directory", any other encoding is
    "Unsupported encoding"; both are plain errors, not NotModified. *)
Theorem readUrl_refuses_non_file (url : string) (etag : option string)
        (parsed : ParsedUrl) (client : GithubClient.Octokit) (s1 : Service)
        (hdrs : gmap string string) (data : ContentData) (w : World) :
  parseGithubUrl url = Return parsed ->
  forHost (url_host parsed) (service Service w) = (Return client, s1) ->
  let params := mkGetContent (url_owner parsed) (url_repo parsed)
                             (Some (url_path parsed)) (url_ref parsed)
                             (conditional_headers etag) in
  repos_getContent client params = Return (mkContent hdrs data) ->
  match data with
  | FileData encoding _ => encoding <> "base64"
  | OtherData => True
  end ->
  readUrl url etag w =
  (Throw (Error match data with
                | FileData encoding _ => "Unsupported encoding: " +:+ encoding
                | OtherData => "Expected file but got a directory: " +:+ url
                end),
   mkWorld Service s1 (calls Service w ++ [GetContent client params])
           (dirs Service w) (written Service w)).
Proof.
  intros Hp Hf params Hc Hd.
  unfold Reader.readUrl, bind at 1, lift. rewrite Hp.
  unfold bind at 1, github_forHost. rewrite Hf.
  unfold try_catch, bind, getContent. cbn. fold params. rewrite Hc. cbn.
  destruct data as [encoding content|]; [|reflexivity].
  apply String.eqb_neq in Hd. rewrite Hd. reflexivity.
Qed.

End ReaderMore.


Lemma invalid_url_reads_nothing_witness :
  Reader.readTree GithubClient.State (GithubClient.forHost Examples.discovery None)
                  MoreExamples.parse_nothing Examples.content_of Examples.tree_of
                  Examples.decode_stub "/tmp" Examples.join_paths
                  Examples.mkdtemp_ok Examples.mkdir_ok Examples.writeFile_ok
                  "not a url" Examples.reader_world
  = (Throw (Error "Invalid Git URL: not a url"), Examples.reader_world).
Proof.
  apply (invalid_url_reads_nothing GithubClient.State
           (GithubClient.forHost Examples.discovery None)
           MoreExamples.parse_nothing Examples.content_of Examples.tree_of
           Examples.decode_stub "/tmp" Examples.join_paths
           Examples.mkdtemp_ok Examples.mkdir_ok Examples.writeFile_ok
           (Glob.minimatch (fun _ _ => false))
           "not a url" (Reader.mkGitUrl "" "" "" "" "") None Examples.reader_world
           eq_refl eq_refl).
Defined.

Lemma no_client_reads_nothing_witness :
  Reader.search GithubClient.State
                (GithubClient.forHost MoreExamples.discovery_down None)
                Examples.parse_url Examples.tree_of
                (Glob.minimatch (fun _ _ => false))
                "https://github.com/o/r" Examples.reader_world
  = (Throw (JS.Error "discovery unavailable"),
     Reader.mkWorld GithubClient.State (GithubClient.mkState ∅ 1) [] [] ∅).
Proof.
  apply (no_client_reads_nothing GithubClient.State
           (GithubClient.forHost MoreExamples.discovery_down None)
           Examples.parse_url Examples.content_of Examples.tree_of
           Examples.decode_stub "/tmp" Examples.join_paths
           Examples.mkdtemp_ok Examples.mkdir_ok Examples.writeFile_ok
           (Glob.minimatch (fun _ _ => false))
           "https://github.com/o/r"
           (Reader.mkParsed "github.com" "o" "r" "" "main")
           (JS.Error "discovery unavailable") (GithubClient.mkState ∅ 1)
           None Examples.reader_world eq_refl eq_refl).
Defined.

Lemma readUrl_returns_file_witness :
  Reader.readUrl GithubClient.State (GithubClient.forHost Examples.discovery None)
                 Examples.parse_file_url Examples.content_of Examples.decode_stub
                 "https://github.com/o/r/blob/main/a.txt" None Examples.reader_world
  = (Return (Reader.mkReadUrl "aGk=" (Some "W/a") None),
     Reader.mkWorld GithubClient.State
       (GithubClient.mkState {[ "github.com" := Examples.host_client ]} 1)
       [Reader.GetContent Examples.host_client
          (Reader.mkGetContent "o" "r" (Some "a.txt") "main" ∅)]
       [] ∅).
Proof.
  apply (readUrl_returns_file GithubClient.State
           (GithubClient.forHost Examples.discovery None)
           Examples.parse_file_url Examples.content_of Examples.decode_stub
           "https://github.com/o/r/blob/main/a.txt" None
           (Reader.mkParsed "github.com" "o" "r" "a.txt" "main")
           Examples.host_client
           (GithubClient.mkState {[ "github.com" := Examples.host_client ]} 1)
           {[ "etag" := "W/a" ]} "aGk=" Examples.reader_world
           eq_refl eq_refl eq_refl).
Defined.

Lemma readUrl_rethrows_witness :
  Reader.readUrl GithubClient.State (GithubClient.forHost Examples.discovery None)
                 MoreExamples.parse_b_url Examples.content_of Examples.decode_stub
                 "https://github.com/o/r/blob/main/b.txt" None Examples.reader_world
  = (Throw (mkError "HttpError" "Server Error" (Some 500)),
     Reader.mkWorld GithubClient.State
       (GithubClient.mkState {[ "github.com" := Examples.host_client ]} 1)
       [Reader.GetContent Examples.host_client
          (Reader.mkGetContent "o" "r" (Some "b.txt") "main" ∅)]
       [] ∅).
Proof.
  apply (readUrl_rethrows GithubClient.State
           (GithubClient.forHost Examples.discovery None)
           MoreExamples.parse_b_url Examples.content_of Examples.decode_stub
           "https://github.com/o/r/blob/main/b.txt" None
           (Reader.mkParsed "github.com" "o" "r" "b.txt" "main")
           Examples.host_client
           (GithubClient.mkState {[ "github.com" := Examples.host_client ]} 1)
           (mkError "HttpError" "Server Error" (Some 500)) Examples.reader_world
           eq_refl eq_refl eq_refl).
  discriminate.
Defined.

Lemma readUrl_refuses_non_file_witness :
  Reader.readUrl GithubClient.State (GithubClient.forHost Examples.discovery None)
                 Examples.parse_url MoreExamples.content_directory Examples.decode_stub
                 "https://github.com/o/r" None Examples.reader_world
  = (Throw (Error "Expected file but got a directory: https://github.com/o/r"),
     Reader.mkWorld GithubClient.State
       (GithubClient.mkState {[ "github.com" := Examples.host_client ]} 1)
       [Reader.GetContent Examples.host_client
          (Reader.mkGetContent "o" "r" (Some "") "main" ∅)]
       [] ∅).
Proof.
  apply (readUrl_refuses_non_file GithubClient.State
           (GithubClient.forHost Examples.discovery None)
           Examples.parse_url MoreExamples.content_directory Examples.decode_stub
           "https://github.com/o/r" None
           (Reader.mkParsed "github.com" "o" "r" "" "main")
           Examples.host_client
           (GithubClient.mkState {[ "github.com" := Examples.host_client ]} 1)
           ∅ Reader.OtherData Examples.reader_world
           eq_refl eq_refl eq_refl I).
Defined.

(** ** Tree reads and search, continued *)

Section ReaderTree.
Import Reader.
Variable Service : Type.
Variable forHost : string -> Async Service GithubClient.Octokit.
Variable parseGitUrl : string -> completion GitUrl.
Variable repos_getContent :
  GithubClient.Octokit -> GetContentParams -> completion ContentResponse.
Variable git_getTree : GithubClient.Octokit -> GetTreeParams -> completion TreeResponse.
Variable base64_decode : string -> string.
Variable tmpdir : string.
Variable join : string -> string -> string.
Variable fs_mkdtemp : string -> nat -> completion string.
Variable fs_mkdir : string -> completion unit.
Variable fs_writeFile : string -> string -> completion unit.
Variable minimatch : string -> string -> bool.

Local Abbreviation World := (Reader.World Service).
Local Abbreviation parseGithubUrl := (Reader.parseGithubUrl parseGitUrl).
Local Abbreviation calls := (Reader.calls Service).
Local Abbreviation service := (Reader.service Service).
Local Abbreviation fetch_blob :=
  (Reader.fetch_blob Service repos_getContent base64_decode join fs_mkdir fs_writeFile).
Local Abbreviation readTree :=
  (Reader.readTree Service forHost parseGitUrl repos_getContent git_getTree
                   base64_decode tmpdir join fs_mkdtemp fs_mkdir fs_writeFile).
Local Abbreviation search :=
  (Reader.search Service forHost parseGitUrl git_getTree minimatch).
Local Abbreviation search_content :=
  (Reader.search_content Service repos_getContent base64_decode).

(** One task makes one content request and leaves the service alone,
    however it ends. *)
Lemma fetch_blob_frame (client : GithubClient.Octokit) (parsed : ParsedUrl)
      (tempDir : string) (file : TreeItem) (w : World) :
  calls (snd (fetch_blob client parsed tempDir file w))
  = (calls w ++ [GetContent client (blob_request parsed file)])%list
  /\ service (snd (fetch_blob client parsed tempDir file w)) = service w.
Proof.
  unfold Reader.fetch_blob, bind, getContent, lift, mkdir, writeFile, non_null,
    blob_request, throw, ret.
  destruct (repos_getContent client _) as [[hdrs [encoding content|]]|e]; cbn;
    try (split; reflexivity).
  destruct (String.eqb encoding "base64"); cbn; [|split; reflexivity].
  destruct (Reader.path file) as [p|]; cbn; [|split; reflexivity].
  destruct (fs_mkdir _) as [[]|e]; cbn; [|split; reflexivity].
  destruct (fs_writeFile _ _) as [[]|e]; cbn; split; reflexivity.
Qed.

Lemma Promise_all_frame (client : GithubClient.Octokit) (parsed : ParsedUrl)
      (tempDir : string) (files : list TreeItem) (w : World) :
  calls (snd (Promise_all Service
                (List.map (fetch_blob client parsed tempDir) files) w))
  = (calls w ++ List.map (fun file => GetContent client (blob_request parsed file))
                         files)%list
  /\ service (snd (Promise_all Service
                     (List.map (fetch_blob client parsed tempDir) files) w))
     = service w.
Proof.
  revert w. induction files as [|file files IH]; intros w.
  - cbn. now rewrite app_nil_r.
  - cbn [List.map Promise_all].
    destruct (fetch_blob_frame client parsed tempDir file w) as [Hc Hs].
    destruct (fetch_blob client parsed tempDir file w) as [[a|e] w1]; cbn in Hc, Hs.
    + destruct (IH w1) as [Hc1 Hs1].
      destruct (Promise_all Service _ w1) as [[l|e] w2]; cbn in *;
        rewrite Hc1, Hs1, Hc, Hs, <- app_assoc; split; reflexivity.
    + destruct (IH w1) as [Hc1 Hs1]. cbn.
      rewrite Hc1, Hs1, Hc, Hs, <- app_assoc. split; reflexivity.
Qed.

(** X11. Once the tree is listed and the temporary directory exists,
    readTree requests the content of every selected entry exactly once, in
    listing order, whether or not some of the requests fail. *)
Theorem readTree_fetches_every_blob (url : string) (parsed : ParsedUrl)
        (client : GithubClient.Octokit) (s1 : Service) (response : TreeResponse)
        (tempDir : string) (w : World) :
  parseGithubUrl url = Return parsed ->
  forHost (url_host parsed) (service w) = (Return client, s1) ->
  git_getTree client (tree_request parsed) = Return response ->
  fs_mkdtemp (join tmpdir "url-reader-") (length (dirs Service w)) = Return tempDir ->
  calls (snd (readTree url w))
  = (calls w ++ GetTree client (tree_request parsed)
       :: List.map (fun file => GetContent client (blob_request parsed file))
                   (readTree_files (url_path parsed) (tree response)))%list.
Proof.
  intros Hp Hf Ht Hd.
  unfold Reader.readTree, bind at 1, lift. rewrite Hp.
  unfold bind at 1, github_forHost. rewrite Hf.
  unfold bind at 1, getTree. cbn [Reader.service Reader.calls Reader.dirs Reader.written].
  fold (tree_request parsed). rewrite Ht.
  unfold bind at 1, mkdtemp. cbn [Reader.service Reader.calls Reader.dirs Reader.written].
  rewrite Hd. unfold bind at 1.
  match goal with |- context [Promise_all Service ?ts ?w0] =>
    destruct (Promise_all_frame client parsed tempDir
                (readTree_files (url_path parsed) (tree response)) w0) as [Hc _];
    destruct (Promise_all Service ts w0) as [[l|e] w2] end;
    cbn in Hc |- *; rewrite Hc, <- app_assoc; reflexivity.
Qed.

(** [Promise.all] resolves when every task is bound to resolve. *)
Lemma Promise_all_resolves {A} (tasks : list (Async World A)) :
  (forall task, In task tasks -> forall w, is_throw (fst (task w)) = false) ->
  forall w, is_throw (fst (Promise_all Service tasks w)) = false.
Proof.
  induction tasks as [|t rest IH]; intros Hall w; [reflexivity|].
  cbn [Promise_all].
  pose proof (Hall t (or_introl eq_refl) w) as Ht.
  destruct (t w) as [[a|e] w1]; [|discriminate].
  specialize (IH (fun task Hin => Hall task (or_intror Hin)) w1).
  destruct (Promise_all Service rest w1) as [[l|e] w2]; [reflexivity|discriminate].
Qed.

(** X12. readTree returns, with the selected entries, the temporary
    directory and the listing's etag, when every selected entry is answered
    by a base64 file (and has a path) or by a response without content, and
    the directory and file writes succeed. *)
Theorem readTree_returns (url : string) (parsed : ParsedUrl)
        (client : GithubClient.Octokit) (s1 : Service) (response : TreeResponse)
        (tempDir : string) (w : World) :
  parseGithubUrl url = Return parsed ->
  forHost (url_host parsed) (service w) = (Return client, s1) ->
  git_getTree client (tree_request parsed) = Return response ->
  fs_mkdtemp (join tmpdir "url-reader-") (length (dirs Service w)) = Return tempDir ->
  (forall file, In file (readTree_files (url_path parsed) (tree response)) ->
     (exists hdrs, repos_getContent client (blob_request parsed file)
                   = Return (mkContent hdrs OtherData))
     \/ (exists hdrs content,
            repos_getContent client (blob_request parsed file)
            = Return (mkContent hdrs (FileData "base64" content))
            /\ path file <> None)) ->
  (forall d, fs_mkdir d = Return tt) ->
  (forall f contents, fs_writeFile f contents = Return tt) ->
  fst (readTree url w)
  = Return (mkReadTree (readTree_files (url_path parsed) (tree response)) tempDir
                       (tree_headers response !! "etag")).
Proof.
  intros Hp Hf Ht Hd Hfiles Hmk Hwr.
  unfold Reader.readTree, bind at 1, lift. rewrite Hp.
  unfold bind at 1, github_forHost. rewrite Hf.
  unfold bind at 1, getTree. cbn [Reader.service Reader.calls Reader.dirs Reader.written].
  fold (tree_request parsed). rewrite Ht.
  unfold bind at 1, mkdtemp. cbn [Reader.service Reader.calls Reader.dirs Reader.written].
  rewrite Hd. unfold bind at 1.
  match goal with |- context [Promise_all Service ?ts ?w0] =>
    pose proof (Promise_all_resolves ts) as Hall;
    specialize (fun H => Hall H w0);
    destruct (Promise_all Service ts w0) as [[l|e] w2] end; [reflexivity|].
  exfalso. cbn in Hall. assert (true = false); [|discriminate]. apply Hall.
  intros task Hin w0. apply in_map_iff in Hin as (file & <- & Hin).
  unfold Reader.fetch_blob, bind, getContent, lift, mkdir, writeFile, non_null, ret.
  fold (blob_request parsed file).
  destruct (Hfiles file Hin) as [(hdrs & ->) | (hdrs & content & -> & Hpath)];
    [reflexivity|]. cbn.
  destruct (Reader.path file) as [p|]; [|contradiction]. cbn.
  rewrite Hmk. cbn. rewrite Hwr. reflexivity.
Qed.

(** X13. When the temporary directory cannot be made, readTree throws that
    error after the tree request alone: no content is requested and
    nothing is written. *)
Theorem readTree_without_tempdir (url : string) (parsed : ParsedUrl)
        (client : GithubClient.Octokit) (s1 : Service) (response : TreeResponse)
        (e : JsError) (w : World) :
  parseGithubUrl url = Return parsed ->
  forHost (url_host parsed) (service w) = (Return client, s1) ->
  git_getTree client (tree_request parsed) = Return response ->
  fs_mkdtemp (join tmpdir "url-reader-") (length (dirs Service w)) = Throw e ->
  readTree url w
  = (Throw e,
     mkWorld Service s1 (calls w ++ [GetTree client (tree_request parsed)])
             (dirs Service w) (written Service w)).
Proof.
  intros Hp Hf Ht Hd.
  unfold Reader.readTree, bind at 1, lift. rewrite Hp.
  unfold bind at 1, github_forHost. rewrite Hf.
  unfold bind at 1, getTree. cbn [Reader.service Reader.calls Reader.dirs Reader.written].
  fold (tree_request parsed). rewrite Ht.
  unfold bind at 1, mkdtemp. cbn [Reader.service Reader.calls Reader.dirs Reader.written].
  rewrite Hd. reflexivity.
Qed.

(** X14. search makes one upstream request, the tree listing, and nothing
    else: whatever the listing holds and however search ends, no content
    is requested, no directory made and no file written. *)
Theorem search_is_lazy (url : string) (parsed : ParsedUrl)
        (client : GithubClient.Octokit) (s1 : Service) (w : World) :
  parseGithubUrl url = Return parsed ->
  forHost (url_host parsed) (service w) = (Return client, s1) ->
  snd (search url w)
  = mkWorld Service s1 (calls w ++ [GetTree client (tree_request parsed)])
            (dirs Service w) (written Service w).
Proof.
  intros Hp Hf.
  unfold Reader.search, bind at 1, lift. rewrite Hp.
  unfold bind at 1, github_forHost. rewrite Hf.
  unfold bind at 1, getTree. cbn [Reader.service Reader.calls Reader.dirs Reader.written].
  fold (tree_request parsed).
  destruct (git_getTree client (tree_request parsed)) as [response|e]; [|reflexivity].
  unfold bind, ret.
  destruct (search_files minimatch (url_path parsed) (tree response)); reflexivity.
Qed.

(** X15. Every entry of a search result is an entry of the listing that
    has a path, and its URL is https://github.com/owner/repo/blob/ref/path:
    the web host is github.com whatever host the input URL names. *)
Theorem search_result_urls (url : string) (parsed : ParsedUrl)
        (r : SearchResponse) (u : string) (file : TreeItem) (w : World) :
  parseGithubUrl url = Return parsed ->
  fst (search url w) = Return r ->
  In (u, file) (sr_files r) ->
  exists p, path file = Some p
            /\ u = "https://github.com/" +:+ url_owner parsed +:+ "/"
                   +:+ url_repo parsed +:+ "/blob/" +:+ url_ref parsed +:+ "/" +:+ p.
Proof.
  intros Hp. unfold Reader.search, bind at 1, lift. rewrite Hp.
  unfold bind at 1, github_forHost.
  destruct (forHost (url_host parsed) (service w)) as [[client|e] s1]; [|discriminate].
  unfold bind at 1, getTree.
  destruct (git_getTree client _) as [response|e]; [|discriminate].
  unfold bind, ret.
  destruct (search_files minimatch (url_path parsed) (tree response)) as [kept|e] eqn:K;
    [|discriminate].
  cbn. intros [= <-]. cbn. intros Hin.
  apply in_map_iff in Hin as (f & [= <- <-] & Hf).
  apply (search_files_spec minimatch _ _ _ f K) in Hf as (_ & _ & p & Hpath & _).
  exists p. split; [exact Hpath|]. unfold blob_url. rewrite Hpath. reflexivity.
Qed.

(** X16. The content accessor of a search result returns exactly when the
    entry is answered by a base64 file, and then returns its decoded
    content; a response without content or in another encoding is an
    error. *)
Theorem search_content_returns_iff (client : GithubClient.Octokit)
        (parsed : ParsedUrl) (file : TreeItem) (b : string) (w : World) :
  fst (search_content client parsed file w) = Return b <->
  exists hdrs content,
    repos_getContent client (blob_request parsed file)
    = Return (mkContent hdrs (FileData "base64" content))
    /\ b = base64_decode content.
Proof.
  unfold Reader.search_content, bind, getContent, throw, ret.
  fold (blob_request parsed file).
  destruct (repos_getContent client (blob_request parsed file))
    as [[hdrs [encoding content|]]|e]; cbn.
  - destruct (String.eqb encoding "base64") eqn:E; cbn.
    + apply String.eqb_eq in E. subst encoding. split.
      * intros [= <-]. eauto.
      * intros (h & c & [= <- <-] & ->). reflexivity.
    + apply String.eqb_neq in E. split; [discriminate|].
      intros (h & c & H & _). injection H as _ H _. contradiction.
  - split; [discriminate | intros (h & c & [=] & _)].
  - split; [discriminate | intros (h & c & [=] & _)].
Qed.

End ReaderTree.

Lemma readTree_fetches_every_blob_witness :
  Reader.calls GithubClient.State
    (snd (Reader.readTree GithubClient.State
            (GithubClient.forHost Examples.discovery None)
            Examples.parse_url Examples.content_of Examples.tree_of
            Examples.decode_stub "/tmp" Examples.join_paths
            Examples.mkdtemp_ok Examples.mkdir_ok Examples.writeFile_ok
            "https://github.com/o/r" Examples.reader_world))
  = [Reader.GetTree Examples.host_client (Reader.mkGetTree "o" "r" "main" "true");
     Reader.GetContent Examples.host_client
       (Reader.mkGetContent "o" "r" (Some "a.txt") "main" ∅);
     Reader.GetContent Examples.host_client
       (Reader.mkGetContent "o" "r" (Some "b.txt") "main" ∅)].
Proof.
  apply (readTree_fetches_every_blob GithubClient.State
           (GithubClient.forHost Examples.discovery None)
           Examples.parse_url Examples.content_of Examples.tree_of
           Examples.decode_stub "/tmp" Examples.join_paths
           Examples.mkdtemp_ok Examples.mkdir_ok Examples.writeFile_ok
           "https://github.com/o/r"
           (Reader.mkParsed "github.com" "o" "r" "" "main")
           Examples.host_client
           (GithubClient.mkState {[ "github.com" := Examples.host_client ]} 1)
           (Reader.mkTree {[ "etag" := "W/tree" ]}
                          [Examples.blob "a.txt"; Examples.blob "b.txt"])
           "/tmp/url-reader-XXXXXX" Examples.reader_world
           eq_refl eq_refl eq_refl eq_refl).
Defined.

Lemma readTree_returns_witness :
  fst (Reader.readTree GithubClient.State
         (GithubClient.forHost Examples.discovery None)
         Examples.parse_url Examples.content_of Examples.tree_of_a
         Examples.decode_stub "/tmp" Examples.join_paths
         Examples.mkdtemp_ok Examples.mkdir_ok Examples.writeFile_ok
         "https://github.com/o/r" Examples.reader_world)
  = Return (Reader.mkReadTree [Examples.blob "a.txt"] "/tmp/url-reader-XXXXXX"
                              (Some "W/tree")).
Proof.
  apply (readTree_returns GithubClient.State
           (GithubClient.forHost Examples.discovery None)
           Examples.parse_url Examples.content_of Examples.tree_of_a
           Examples.decode_stub "/tmp" Examples.join_paths
           Examples.mkdtemp_ok Examples.mkdir_ok Examples.writeFile_ok
           "https://github.com/o/r"
           (Reader.mkParsed "github.com" "o" "r" "" "main")
           Examples.host_client
           (GithubClient.mkState {[ "github.com" := Examples.host_client ]} 1)
           (Reader.mkTree {[ "etag" := "W/tree" ]} [Examples.blob "a.txt"])
           "/tmp/url-reader-XXXXXX" Examples.reader_world
           eq_refl eq_refl eq_refl eq_refl).
  - intros file [<- | []]. right. exists {[ "etag" := "W/a" ]}, "aGk=".
    split; [reflexivity | discriminate].
  - reflexivity.
  - reflexivity.
Defined.

Lemma readTree_without_tempdir_witness :
  Reader.readTree GithubClient.State
    (GithubClient.forHost Examples.discovery None)
    Examples.parse_url Examples.content_of Examples.tree_of
    Examples.decode_stub "/tmp" Examples.join_paths
    MoreExamples.mkdtemp_fails Examples.mkdir_ok Examples.writeFile_ok
    "https://github.com/o/r" Examples.reader_world
  = (Throw (JS.Error "ENOSPC: no space left on device, mkdtemp"),
     Reader.mkWorld GithubClient.State
       (GithubClient.mkState {[ "github.com" := Examples.host_client ]} 1)
       [Reader.GetTree Examples.host_client (Reader.mkGetTree "o" "r" "main" "true")]
       [] ∅).
Proof.
  apply (readTree_without_tempdir GithubClient.State
           (GithubClient.forHost Examples.discovery None)
           Examples.parse_url Examples.content_of Examples.tree_of
           Examples.decode_stub "/tmp" Examples.join_paths
           MoreExamples.mkdtemp_fails Examples.mkdir_ok Examples.writeFile_ok
           "https://github.com/o/r"
           (Reader.mkParsed "github.com" "o" "r" "" "main")
           Examples.host_client
           (GithubClient.mkState {[ "github.com" := Examples.host_client ]} 1)
           (Reader.mkTree {[ "etag" := "W/tree" ]}
                          [Examples.blob "a.txt"; Examples.blob "b.txt"])
           (JS.Error "ENOSPC: no space left on device, mkdtemp")
           Examples.reader_world eq_refl eq_refl eq_refl eq_refl).
Defined.

Lemma search_is_lazy_witness :
  snd (Reader.search GithubClient.State
         (GithubClient.forHost Examples.discovery None)
         Examples.parse_url Examples.tree_of (Glob.minimatch (fun _ _ => false))
         "https://github.com/o/r" Examples.reader_world)
  = Reader.mkWorld GithubClient.State
      (GithubClient.mkState {[ "github.com" := Examples.host_client ]} 1)
      [Reader.GetTree Examples.host_client (Reader.mkGetTree "o" "r" "main" "true")]
      [] ∅.
Proof.
  apply (search_is_lazy GithubClient.State
           (GithubClient.forHost Examples.discovery None)
           Examples.parse_url Examples.tree_of (Glob.minimatch (fun _ _ => false))
           "https://github.com/o/r"
           (Reader.mkParsed "github.com" "o" "r" "" "main")
           Examples.host_client
           (GithubClient.mkState {[ "github.com" := Examples.host_client ]} 1)
           Examples.reader_world eq_refl eq_refl).
Defined.

Lemma search_result_urls_witness :
  exists p, Reader.path (Examples.blob "README.md") = Some p
            /\ "https://github.com/o/r/blob/main/README.md"
               = "https://github.com/" +:+ "o" +:+ "/" +:+ "r" +:+ "/blob/"
                 +:+ "main" +:+ "/" +:+ p.
Proof.
  apply (search_result_urls GithubClient.State
           (GithubClient.forHost Examples.discovery None)
           Examples.parse_url Examples.tree_of_dot (Glob.minimatch (fun _ _ => false))
           "https://github.com/o/r"
           (Reader.mkParsed "github.com" "o" "r" "" "main")
           (Reader.mkSearch
              [("https://github.com/o/r/blob/main/README.md", Examples.blob "README.md")]
              (Some "W/tree"))
           "https://github.com/o/r/blob/main/README.md" (Examples.blob "README.md")
           Examples.reader_world eq_refl eq_refl).
  left. reflexivity.
Defined.

(** ** The client cache, continued *)

Section CacheMore.
Import GithubClient.
Variable getBaseUrl : string -> nat -> completion string.
Variable fetch : option FetchFn.

Local Abbreviation forHost := (GithubClient.forHost getBaseUrl fetch).
Local Abbreviation reachable := (GithubClient.reachable getBaseUrl fetch).


(** X18. A failed discovery lookup caches nothing: the host was absent and
    stays absent, so the next call for it asks discovery again. *)
Theorem failed_discovery_not_cached (host : string) (st st1 : State) (e : JsError) :
  forHost host st = (Throw e, st1) ->
  octokitCache st !! host = None
  /\ octokitCache st1 = octokitCache st
  /\ discoveries st1 = S (discoveries st)
  /\ getBaseUrl "github" (discoveries st) = Throw e
  /\ forHost host st1
     = match getBaseUrl "github" (S (discoveries st)) with
       | Throw e' => (Throw e', mkState (octokitCache st) (S (S (discoveries st))))
       | Return base =>
           (Return (mkOctokit base fetch {[ "github-host" := host ]} false false),
            mkState (<[host := mkOctokit base fetch {[ "github-host" := host ]}
                                         false false]> (octokitCache st))
                    (S (S (discoveries st))))
       end.
Proof.
  intros Hcall.
  destruct (forHost_cases getBaseUrl fetch host st)
    as [(c & _ & E) | (Hn & [(e' & Hd & E) | (b & _ & E)])];
    rewrite E in Hcall; try discriminate.
  injection Hcall as H1 H2. subst. cbn. repeat split; auto.
  unfold GithubClient.forHost. cbn. rewrite Hn. reflexivity.
Qed.

(** X19. A call for one host leaves the cached client of every other host
    as it was. *)
Theorem forHost_other_host (h1 h2 : string) (st : State) :
  h1 <> h2 ->
  octokitCache (snd (forHost h1 st)) !! h2 = octokitCache st !! h2.
Proof.
  intros Hne.
  destruct (forHost_cases getBaseUrl fetch h1 st)
    as [(c & _ & ->) | (Hn & [(e & _ & ->) | (b & _ & ->)])]; cbn; try reflexivity.
  now apply lookup_insert_ne.
Qed.

End CacheMore.


Lemma failed_discovery_not_cached_witness :
  GithubClient.octokitCache (GithubClient.mkState ∅ 1)
  = GithubClient.octokitCache GithubClient.new.
Proof.
  apply (failed_discovery_not_cached MoreExamples.discovery_down None "github.com"
           GithubClient.new (GithubClient.mkState ∅ 1)
           (JS.Error "discovery unavailable") eq_refl).
Defined.

Lemma forHost_other_host_witness :
  GithubClient.octokitCache
    (snd (GithubClient.forHost Examples.discovery None "ghe.example.com"
            (GithubClient.mkState {[ "github.com" := Examples.host_client ]} 1)))
  !! "github.com"
  = GithubClient.octokitCache
      (GithubClient.mkState {[ "github.com" := Examples.host_client ]} 1)
    !! "github.com".
Proof.
  apply (forHost_other_host Examples.discovery None "ghe.example.com" "github.com").
  discriminate.
Defined.

(** ** The reader on the default service *)

Section ReaderService.
Import Reader.
Variable Service : Type.
Variable forHost : string -> Async Service GithubClient.Octokit.
Variable parseGitUrl : string -> completion GitUrl.
Variable repos_getContent :
  GithubClient.Octokit -> GetContentParams -> completion ContentResponse.
Variable git_getTree : GithubClient.Octokit -> GetTreeParams -> completion TreeResponse.
Variable base64_decode : string -> string.
Variable tmpdir : string.
Variable join : string -> string -> string.
Variable fs_mkdtemp : string -> nat -> completion string.
Variable fs_mkdir : string -> completion unit.
Variable fs_writeFile : string -> string -> completion unit.
Variable minimatch : string -> string -> bool.

(** X20. Each read operation uses the service through a single [forHost]
    call for the URL's host: the service afterwards is the service as that
    one call left it. *)
Theorem reads_call_forHost_once (url : string) (parsed : ParsedUrl)
        (etag : option string) (w : World Service) :
  Reader.parseGithubUrl parseGitUrl url = Return parsed ->
  let s1 := snd (forHost (url_host parsed) (service Service w)) in
  service Service
    (snd (Reader.readUrl Service forHost parseGitUrl repos_getContent base64_decode
                         url etag w)) = s1
  /\ service Service
       (snd (Reader.readTree Service forHost parseGitUrl repos_getContent git_getTree
                             base64_decode tmpdir join fs_mkdtemp fs_mkdir
                             fs_writeFile url w)) = s1
  /\ service Service
       (snd (Reader.search Service forHost parseGitUrl git_getTree minimatch url w))
     = s1.
Proof.
  intros Hp s1. subst s1. split; [|split].
  - unfold Reader.readUrl, bind at 1, lift. rewrite Hp.
    unfold bind at 1, github_forHost.
    destruct (forHost (url_host parsed) (service Service w)) as [[client|e] s1];
      [|reflexivity].
    unfold try_catch, bind, getContent. cbn.
    destruct (repos_getContent client _) as [[hdrs [encoding content|]]|e]; cbn.
    + now destruct (String.eqb encoding "base64").
    + reflexivity.
    + destruct (JS.status e) as [n|]; [|reflexivity].
      destruct n as [|n|n]; try reflexivity.
      repeat (destruct n as [n|n|]; try reflexivity).
  - unfold Reader.readTree, bind at 1, lift. rewrite Hp.
    unfold bind at 1, github_forHost.
    destruct (forHost (url_host parsed) (service Service w)) as [[client|e] s1];
      [|reflexivity].
    unfold bind at 1, getTree. cbn [service calls dirs written snd].
    destruct (git_getTree client _) as [response|e]; [|reflexivity].
    unfold bind at 1, mkdtemp. cbn [service calls dirs written].
    destruct (fs_mkdtemp _ _) as [tempDir|e]; [|reflexivity].
    unfold bind at 1.
    match goal with |- context [Promise_all Service ?ts ?w0] =>
      destruct (Promise_all_frame Service repos_getContent base64_decode join
                  fs_mkdir fs_writeFile client parsed tempDir
                  (readTree_files (url_path parsed) (tree response)) w0) as [_ Hs];
      destruct (Promise_all Service ts w0) as [[l|e] w2] end;
      cbn in Hs |- *; exact Hs.
  - unfold Reader.search, bind at 1, lift. rewrite Hp.
    unfold bind at 1, github_forHost.
    destruct (forHost (url_host parsed) (service Service w)) as [[client|e] s1];
      [|reflexivity].
    unfold bind at 1, getTree. cbn [service calls dirs written snd].
    destruct (git_getTree client _) as [response|e]; [|reflexivity].
    unfold bind, ret.
    now destruct (search_files minimatch (url_path parsed) (tree response)).
Qed.

End ReaderService.

Section ReaderOnDefaultService.
Import Reader.
Variable getBaseUrl : string -> nat -> completion string.
Variable parseGitUrl : string -> completion GitUrl.
Variable repos_getContent :
  GithubClient.Octokit -> GetContentParams -> completion ContentResponse.
Variable git_getTree : GithubClient.Octokit -> GetTreeParams -> completion TreeResponse.
Variable base64_decode : string -> string.
Variable tmpdir : string.
Variable join : string -> string -> string.
Variable fs_mkdtemp : string -> nat -> completion string.
Variable fs_mkdir : string -> completion unit.
Variable fs_writeFile : string -> string -> completion unit.
Variable minimatch : string -> string -> bool.

(** X21. On the default service, reading from a host whose client is
    already cached makes no discovery lookup and leaves the cache as it
    is, for each of the three read operations. *)
Theorem reads_reuse_cached_client (url : string) (parsed : ParsedUrl)
        (c : GithubClient.Octokit) (etag : option string)
        (w : World GithubClient.State) :
  Reader.parseGithubUrl parseGitUrl url = Return parsed ->
  GithubClient.octokitCache (service GithubClient.State w) !! url_host parsed = Some c ->
  service GithubClient.State
    (snd (Reader.readUrl GithubClient.State (DefaultGithubService.forHost getBaseUrl)
                         parseGitUrl repos_getContent base64_decode url etag w))
  = service GithubClient.State w
  /\ service GithubClient.State
       (snd (Reader.readTree GithubClient.State
               (DefaultGithubService.forHost getBaseUrl) parseGitUrl
               repos_getContent git_getTree base64_decode tmpdir join fs_mkdtemp
               fs_mkdir fs_writeFile url w))
     = service GithubClient.State w
  /\ service GithubClient.State
       (snd (Reader.search GithubClient.State
               (DefaultGithubService.forHost getBaseUrl) parseGitUrl git_getTree
               minimatch url w))
     = service GithubClient.State w.
Proof.
  intros Hp Hc.
  assert (E : snd (DefaultGithubService.forHost getBaseUrl (url_host parsed)
                     (service GithubClient.State w)) = service GithubClient.State w).
  { unfold DefaultGithubService.forHost, GithubClient.forHost. now rewrite Hc. }
  destruct (reads_call_forHost_once GithubClient.State
              (DefaultGithubService.forHost getBaseUrl) parseGitUrl repos_getContent
              git_getTree base64_decode tmpdir join fs_mkdtemp fs_mkdir fs_writeFile
              minimatch url parsed etag w Hp) as (H1 & H2 & H3).
  rewrite E in H1, H2, H3. auto.
Qed.

End ReaderOnDefaultService.

Lemma reads_call_forHost_once_witness :
  Reader.service GithubClient.State
    (snd (Reader.search GithubClient.State
            (GithubClient.forHost Examples.discovery None)
            Examples.parse_url Examples.tree_of (Glob.minimatch (fun _ _ => false))
            "https://github.com/o/r" Examples.reader_world))
  = snd (GithubClient.forHost Examples.discovery None "github.com" GithubClient.new).
Proof.
  apply (reads_call_forHost_once GithubClient.State
           (GithubClient.forHost Examples.discovery None)
           Examples.parse_url Examples.content_of Examples.tree_of
           Examples.decode_stub "/tmp" Examples.join_paths
           Examples.mkdtemp_ok Examples.mkdir_ok Examples.writeFile_ok
           (Glob.minimatch (fun _ _ => false))
           "https://github.com/o/r"
           (Reader.mkParsed "github.com" "o" "r" "" "main") None
           Examples.reader_world eq_refl).
Defined.

Lemma reads_reuse_cached_client_witness :
  Reader.service GithubClient.State
    (snd (Reader.readTree GithubClient.State
            (DefaultGithubService.forHost MoreExamples.discovery_down)
            Examples.parse_url Examples.content_of Examples.tree_of
            Examples.decode_stub "/tmp" Examples.join_paths
            Examples.mkdtemp_ok Examples.mkdir_ok Examples.writeFile_ok
            "https://github.com/o/r" MoreExamples.warm_world))
  = Reader.service GithubClient.State MoreExamples.warm_world.
Proof.
  apply (reads_reuse_cached_client MoreExamples.discovery_down
           Examples.parse_url Examples.content_of Examples.tree_of
           Examples.decode_stub "/tmp" Examples.join_paths
           Examples.mkdtemp_ok Examples.mkdir_ok Examples.writeFile_ok
           (Glob.minimatch (fun _ _ => false))
           "https://github.com/o/r"
           (Reader.mkParsed "github.com" "o" "r" "" "main")
           Examples.host_client None MoreExamples.warm_world eq_refl eq_refl).
Defined.

(** ** The factory and the router, continued *)

Lemma prefix_length (pat s : string) :
  String.prefix pat s = true -> (String.length pat <= String.length s)%nat.
Proof.
  revert s. induction pat as [|c pat IH]; intros s H; simpl; [lia|].
  destruct s as [|d s]; [discriminate|]. simpl in *.
  destruct (ascii_dec c d); [|discriminate]. specialize (IH s H). lia.
Qed.

(** X22. Replacing a pattern that does not occur in a string leaves the
    string as it is: a path without /api/github is forwarded unchanged. *)
Theorem replace_absent (s pat rep : string) :
  includes s pat = false -> JS.replace s pat rep = s.
Proof.
  induction s as [|c s IH]; cbn [includes JS.replace]; intros H;
    apply orb_false_iff in H as [Hp Hi]; rewrite Hp; [reflexivity|].
  now rewrite (IH Hi).
Qed.

Lemma replace_absent_witness :
  JS.replace "/repos/o/r/contents/x" "/api/github" "" = "/repos/o/r/contents/x".
Proof.
  apply (replace_absent "/repos/o/r/contents/x" "/api/github" ""). reflexivity.
Defined.

Section BackendMore.
Import Backend.
Variable getCredentials : string -> completion (option string).
Variable byUrl : string -> completion (option GithubIntegration).
Variable error_toString : JsError -> string.
Variable octokit_request : UpstreamRequest -> completion UpstreamResponse.
Variable JSON_stringify : Json -> string.

Local Abbreviation getOctokit := (Backend.getOctokit getCredentials byUrl error_toString).
Local Abbreviation handler :=
  (Backend.handler getCredentials byUrl error_toString octokit_request JSON_stringify).

(** X23. getOctokit yields a client exactly when both the credentials
    lookup and the integration lookup return; in every case it makes one
    credentials lookup, sends nothing upstream and writes no response. *)
Theorem getOctokit_client_iff (url : string) (w : World) :
  ((exists client, fst (getOctokit url w) = Return (Some client)) <->
   (exists token, getCredentials url = Return token)
   /\ (exists integration, byUrl url = Return integration))
  /\ credentialLookups (snd (getOctokit url w)) = (credentialLookups w ++ [url])%list
  /\ upstream (snd (getOctokit url w)) = upstream w
  /\ res (snd (getOctokit url w)) = res w.
Proof.
  unfold Backend.getOctokit, try_catch, bind, lift, record_lookup, record_client,
    logger, modify, ret; cbn.
  destruct (getCredentials url) as [token|e]; cbn.
  - destruct (byUrl url) as [integration|e]; cbn.
    + split; [|repeat split]. split; eauto.
    + split; [|repeat split]. split.
      * intros [client H]. discriminate.
      * intros (_ & i & H). discriminate.
  - split; [|repeat split]. split.
    + intros [client H]. discriminate.
    + intros ((t & H) & _). discriminate.
Qed.

(** What a failed lookup leaves behind. *)
Lemma getOctokit_failure_world (url : string) (e : JsError) (w : World) :
  getCredentials url = Throw e \/
  (exists token, getCredentials url = Return token /\ byUrl url = Throw e) ->
  getOctokit url w =
  (Return None,
   mkWorld (log w ++ [LogError ("Error creating Octokit for url " +:+ url +:+ ": "
                                +:+ error_toString e)])
           (credentialLookups w ++ [url]) (clients w) (upstream w) (res w)).
Proof.
  unfold Backend.getOctokit, try_catch, bind, lift, record_lookup, logger,
    modify, ret. cbn.
  intros [Hc | (token & Hc & Hi)]; rewrite Hc; cbn; [reflexivity|].
  rewrite Hi. reflexivity.
Qed.

(** X24. An empty github-host header counts as missing: the handler throws
    the same InputError and touches nothing. *)
Theorem handler_empty_host_header (req : Request) (w : World) :
  req_headers req !! "github-host" = Some "" ->
  handler req w =
  (Throw (InputError ("Missing " +:+ dquote +:+ "github-host" +:+ dquote +:+ " header")),
   w).
Proof. intros H. unfold Backend.handler. rewrite H. reflexivity. Qed.



End BackendMore.

Section BackendErrors.
Import Backend.
Variable getCredentials : string -> completion (option string).
Variable byUrl : string -> completion (option GithubIntegration).
Variable error_toString : JsError -> string.
Variable octokit_request : UpstreamRequest -> completion UpstreamResponse.
Variable JSON_stringify : Json -> string.


End BackendErrors.

Lemma handler_empty_host_header_witness :
  Backend.handler Examples.token_for Examples.integration_for Examples.show_error
                  Examples.upstream_ok Examples.stringify_stub
                  MoreExamples.empty_host_header Examples.empty_world
  = (Throw (InputError ("Missing " +:+ dquote +:+ "github-host" +:+ dquote +:+ " header")),
     Examples.empty_world).
Proof.
  apply (handler_empty_host_header Examples.token_for Examples.integration_for
           Examples.show_error Examples.upstream_ok Examples.stringify_stub
           MoreExamples.empty_host_header Examples.empty_world).
  reflexivity.
Defined.




(** ** The earlier router *)

Section LegacyClaims.
Import Backend.
Variable getCredentials : string -> completion (option string).
Variable byUrl : string -> completion (option GithubIntegration).
Variable error_toString : JsError -> string.
Variable octokit_request : UpstreamRequest -> completion UpstreamResponse.
Variable JSON_stringify : Json -> string.
Variable error_headers : JsError -> gmap string HeaderValue.
Variable res_set : gmap string HeaderValue -> gmap string HeaderValue
                   -> gmap string HeaderValue.

Local Abbreviation legacy :=
  (LegacyRouter.handler getCredentials byUrl error_toString octokit_request
                        JSON_stringify error_headers res_set).

(** X28. The earlier router forwards the inbound path as it is, without
    stripping a prefix, with the inbound method and body, and answers with
    the upstream status and the JSON text of the upstream body. *)
Theorem legacy_forwards_path_verbatim (req : Request) (w : World) (url : string)
        (token : option string) (integration : option GithubIntegration)
        (response : UpstreamResponse) :
  req_headers req !! "github-url" = Some url ->
  url <> "" ->
  getCredentials url = Return token ->
  byUrl url = Return integration ->
  let client := mkClient token (integration ≫= (apiBaseUrl ∘ config)) 3
                  ["400"; "401"; "403"; "404"; "422"; "429"; "501"] in
  let sent := mkUpstream client (method req) (originalUrl req) (body req) in
  octokit_request sent = Return response ->
  let out := legacy req w in
  fst out = Return tt
  /\ upstream (snd out) = (upstream w ++ [sent])%list
  /\ statusCode (res (snd out)) = Some (status response)
  /\ resBody (res (snd out)) = Some (JSON_stringify (data response)).
Proof.
  intros Hh Hurl Hc Hi client sent Hup out.
  assert (E : exists hdrs,
             out = (Return tt,
                    mkWorld (log w) (credentialLookups w ++ [url])
                            (clients w ++ [client]) (upstream w ++ [sent])
                            (mkRes (Some (status response)) hdrs
                                   (Some (JSON_stringify (data response)))))).
  { subst out. unfold LegacyRouter.handler. rewrite Hh.
    destruct (JS.falsy url) eqn:F; [apply falsy_empty in F; contradiction|].
    unfold try_catch at 1, bind at 1.
    rewrite (getOctokit_ok getCredentials byUrl error_toString url token integration w
               Hc Hi). cbn zeta. fold client. fold sent.
    unfold bind, record_upstream, LegacyRouter.respond, set_res, lift, modify, gets.
    cbn. fold sent. rewrite Hup. cbn. eexists. reflexivity. }
  destruct E as [hdrs ->]. repeat split.
Qed.

(** X29. The earlier router does not test the factory's result: without a
    client the request call itself fails, and the handler answers 500 and
    sends nothing upstream. *)
Theorem legacy_without_client (req : Request) (url : string) (e : JsError)
        (w : World) :
  req_headers req !! "github-url" = Some url ->
  url <> "" ->
  getCredentials url = Throw e \/
  (exists token, getCredentials url = Return token /\ byUrl url = Throw e) ->
  let out := legacy req w in
  fst out = Return tt
  /\ upstream (snd out) = upstream w
  /\ clients (snd out) = clients w
  /\ statusCode (res (snd out)) = Some 500.
Proof.
  intros Hh Hurl Hfail out.
  assert (E : exists lg hdrs body,
             out = (Return tt,
                    mkWorld lg (credentialLookups w ++ [url]) (clients w) (upstream w)
                            (mkRes (Some 500) hdrs body))).
  { subst out. unfold LegacyRouter.handler. rewrite Hh.
    destruct (JS.falsy url) eqn:F; [apply falsy_empty in F; contradiction|].
    unfold try_catch at 1, bind at 1.
    rewrite (getOctokit_failure_world getCredentials byUrl error_toString url e w Hfail).
    unfold bind, LegacyRouter.respond, set_res, logger, modify, gets, throw. cbn.
    do 3 eexists. reflexivity. }
  destruct E as (lg & hdrs & body & ->). repeat split.
Qed.

End LegacyClaims.

Lemma legacy_forwards_path_verbatim_witness :
  Backend.upstream
    (snd (LegacyRouter.handler Examples.token_for Examples.integration_for
            Examples.show_error Examples.upstream_ok Examples.stringify_stub
            MoreExamples.no_error_headers MoreExamples.merge_headers
            MoreExamples.legacy_request Examples.empty_world))
  = [Backend.mkUpstream Examples.github_client "GET" "/api/github/user" JNull].
Proof.
  apply (legacy_forwards_path_verbatim Examples.token_for Examples.integration_for
           Examples.show_error Examples.upstream_ok Examples.stringify_stub
           MoreExamples.no_error_headers MoreExamples.merge_headers
           MoreExamples.legacy_request Examples.empty_world "github.com"
           (Some "ghs_token") (Some Examples.github_integration)
           Examples.upstream_response).
  - reflexivity.
  - discriminate.
  - reflexivity.
  - reflexivity.
  - reflexivity.
Defined.

Lemma legacy_without_client_witness :
  Backend.statusCode
    (Backend.res
       (snd (LegacyRouter.handler Examples.token_for Examples.integration_for
               Examples.show_error Examples.upstream_ok Examples.stringify_stub
               MoreExamples.no_error_headers MoreExamples.merge_headers
               MoreExamples.legacy_unknown Examples.empty_world)))
  = Some 500.
Proof.
  apply (legacy_without_client Examples.token_for Examples.integration_for
           Examples.show_error Examples.upstream_ok Examples.stringify_stub
           MoreExamples.no_error_headers MoreExamples.merge_headers
           MoreExamples.legacy_unknown "ghe.example.com"
           (JS.Error "No credentials for ghe.example.com") Examples.empty_world).
  - reflexivity.
  - discriminate.
  - left. reflexivity.
Defined.

(** ** Rate-limit metrics, continued *)

Section MetricsMore.
Import Metrics.

(** When the credentials cannot be resolved the listener throws that
    error before reading any header: no gauge is set. *)
Lemma on_finish_without_credentials
        (e : JsError) (now_ms : Z) (params : RateLimitMetricsParams)
        (res_headers : gmap string HeaderValue) (emitted : list Observation) :
  on_finish (Throw e) now_ms params res_headers emitted = (Throw e, emitted).
Proof. reflexivity. Qed.

(** X30. The listener keeps what the gauges were given before and adds
    at most three observations, each labelled with the external API and
    with the caller: the user's entity ref, the service's subject, or no
    label for any other principal. *)
Theorem on_finish_adds_labelled
        (now_ms : Z) (params : RateLimitMetricsParams) (creds : Credentials)
        (res_headers : gmap string HeaderValue) (emitted : list Observation) :
  exists added,
    snd (on_finish (Return creds) now_ms params res_headers emitted)
    = (emitted ++ added)%list
    /\ (length added <= 3)%nat
    /\ forall o, In o added ->
         external_api o = externalApi params
         /\ invoked_by o = match creds with
                           | UserPrincipal userEntityRef => Some userEntityRef
                           | ServicePrincipal subject => Some subject
                           | OtherPrincipal => None
                           end.
Proof.
  rewrite on_finish_expected. cbn [snd].
  eexists. split; [reflexivity|]. split.
  - rewrite !length_app. unfold expected.
    destruct (getHeader res_headers (header_of params rateLimitMetric)) as [[?|?|?]|];
    destruct (getHeader res_headers (header_of params rateLimitRemainingMetric))
      as [[?|?|?]|];
    destruct (getHeader res_headers (header_of params rateLimitResetMetric))
      as [[?|?|?]|]; cbn; lia.
  - intros o. rewrite !in_app_iff, !in_expected.
    intros [(_ & s & _ & ->) | [(_ & s & _ & ->) | (_ & s & _ & ->)]];
      split; reflexivity.
Qed.

End MetricsMore.
